(** * Personal expense tracker: the ledger engine and its Expense entity

    A shallow embedding of [expense_tracker.py]: the [Expense] dataclass with
    [from_row] / [to_row], and the [ExpenseTracker] engine with [load],
    [save], [add_expense], [list_expenses], [total_expenses], [set_budget],
    [get_budget] and [budget_status].

    The Python standard library the code calls is modelled alongside:
    - [str.strip], [str.lower] on text whose code points are below 256
      (one [ascii] per code point);
    - [datetime.strptime] / [strftime] for the formats [%Y-%m-%d] and [%Y-%m];
      [strftime] is the C library's, and it is modelled as CPython 3.11 runs
      it on glibc: [%Y] writes the digits of the year without padding, so a
      year below 1000 has fewer than four digits ([strptime] wants four);
    - [decimal.Decimal] under the default context (28 significant digits,
      round-half-even, Emax 999999, Emin -999999, traps on InvalidOperation
      and Overflow): construction from text, [format(_, 'f')], [+], [-] and
      the ordering comparisons. Resource limits (memory, the exponent range of
      literals) are not modelled.

    The two files are represented by what [csv] and [json] read from them: a
    table of text fields and a decoded JSON value; writing a table or a value
    and reading it again is taken to give it back. The two paths are taken to
    name different files. *)

From Stdlib Require Import ZArith NArith List Ascii String Bool Lia QArith Qpower Qabs.
From stdpp Require Import base option gmap strings list.

Local Open Scope N_scope.

(** ** Text *)

Module Text.

(** Python [str] values are [string]s; the algorithms below run on the list
    of their characters. *)
Definition chars (s : string) : list ascii := list_ascii_of_string s.
Definition text (l : list ascii) : string := string_of_list_ascii l.

Definition code (c : ascii) : N := N_of_ascii c.

(** [str.isspace] on code points below 256. *)
Definition is_space (c : ascii) : bool :=
  let n := code c in
  ((9 <=? n) && (n <=? 13)) || ((28 <=? n) && (n <=? 32))
  || (n =? 133) || (n =? 160).

Fixpoint lstrip (l : list ascii) : list ascii :=
  match l with
  | [] => []
  | c :: r => if is_space c then lstrip r else l
  end.

Definition rstrip (l : list ascii) : list ascii := rev (lstrip (rev l)).

(** [s.strip()] *)
Definition strip_chars (l : list ascii) : list ascii := rstrip (lstrip l).
Definition strip (s : string) : string := text (strip_chars (chars s)).

(** [str.lower] on code points below 256: A-Z and the Latin-1 capitals. *)
Definition lower_char (c : ascii) : ascii :=
  let n := code c in
  if ((65 <=? n) && (n <=? 90)) || ((192 <=? n) && (n <=? 214))
     || ((216 <=? n) && (n <=? 222))
  then ascii_of_N (n + 32) else c.

Definition lower (s : string) : string := text (map lower_char (chars s)).

(** ASCII-only case folding, used where the library matches keywords. *)
Definition ascii_lower_char (c : ascii) : ascii :=
  let n := code c in
  if (65 <=? n) && (n <=? 90) then ascii_of_N (n + 32) else c.

(** [not s] for a string: the empty string is falsy. *)
Definition is_empty (s : string) : bool :=
  match s with EmptyString => true | _ => false end.

(** *** Decimal digits *)

Definition is_digit (c : ascii) : bool :=
  let n := code c in (48 <=? n) && (n <=? 57).

Definition digit_val (c : ascii) : N := code c - 48.

Definition digit_char (d : N) : ascii := ascii_of_N (48 + d).

(** [int(text)] for a run of digits. *)
Definition digits_value (l : list ascii) : N :=
  fold_left (fun a c => 10 * a + digit_val c) l 0.

Fixpoint digits_aux (fuel : nat) (n : N) (acc : list ascii) : list ascii :=
  match fuel with
  | O => digit_char n :: acc
  | S f =>
      if n <? 10 then digit_char n :: acc
      else digits_aux f (n / 10) (digit_char (n mod 10) :: acc)
  end.

(** [str(n)] for a non-negative integer. *)
Definition digits_of (n : N) : list ascii :=
  digits_aux (N.to_nat (N.size n)) n [].

(** [len(str(n))] *)
Definition ndigits (n : N) : N := N.of_nat (length (digits_of n)).

Definition zeros (k : N) : list ascii := repeat "0"%char (N.to_nat k).

(** [str(n).zfill(w)], the rendering of a [%0wd] field. *)
Definition zero_pad (w : N) (n : N) : list ascii :=
  let ds := digits_of n in
  zeros (w - N.of_nat (length ds)) ++ ds.

(** The longest prefix satisfying [p], and the rest. *)
Fixpoint span (p : ascii -> bool) (l : list ascii) : list ascii * list ascii :=
  match l with
  | [] => ([], [])
  | c :: r =>
      if p c then let '(a, b) := span p r in (c :: a, b) else ([], l)
  end.

End Text.

(** ** Exceptions and results *)

(** The exceptions this code can raise. [InvalidOperation] and [Overflow] are
    [decimal]'s (subclasses of [ArithmeticError], not of [ValueError]). *)
Inductive exn : Type :=
| ValueError (msg : string)
| InvalidOperation
| Overflow
| AttributeError
| JSONDecodeError.

Inductive Res (A : Type) : Type :=
| Ok (a : A)
| Raise (e : exn).
Arguments Ok {A} a.
Arguments Raise {A} e.

Definition res_bind {A B} (r : Res A) (k : A -> Res B) : Res B :=
  match r with
  | Ok a => k a
  | Raise e => Raise e
  end.

(** [Res] is a monad; [x ← r; k] runs [k] unless [r] raised. *)
#[global] Instance Res_ret : MRet Res := fun _ a => Ok a.
#[global] Instance Res_bind : MBind Res := fun _ _ k r => res_bind r k.

(** [try: body except <caught>: handler] *)
Definition try_except {A} (body : Res A) (caught : exn -> bool)
    (handler : exn -> Res A) : Res A :=
  match body with
  | Ok a => Ok a
  | Raise e => if caught e then handler e else Raise e
  end.

Definition is_ok {A} (r : Res A) : bool :=
  match r with Ok _ => true | Raise _ => false end.

(** [isinstance(e, ValueError)] *)
Definition is_ValueError (e : exn) : bool :=
  match e with ValueError _ => true | _ => false end.

(** ** Calendar dates *)

Module Date.
Import Text.

(** [datetime.date]; the type's invariant is [valid]. *)
Record date : Type := mkdate { year : N; month : N; day : N }.

Definition is_leap (y : N) : bool :=
  (y mod 4 =? 0) && (negb (y mod 100 =? 0) || (y mod 400 =? 0)).

Definition days_in_month (y m : N) : N :=
  if m =? 2 then (if is_leap y then 29 else 28)
  else if (m =? 4) || (m =? 6) || (m =? 9) || (m =? 11) then 30
  else 31.

(** What the [date(y, m, d)] constructor accepts. *)
Definition valid_ymd (y m d : N) : bool :=
  (1 <=? y) && (y <=? 9999) && (1 <=? m) && (m <=? 12)
  && (1 <=? d) && (d <=? days_in_month y m).

Definition valid (d : date) : bool := valid_ymd (year d) (month d) (day d).

(** *** [strptime(s, "%Y-%m-%d")]

    The library turns the format into the regular expression
    [(?P<Y>\d\d\d\d)-(?P<m>1[0-2]|0[1-9]|[1-9])-(?P<d>3[01]|[12]\d|0[1-9]|[1-9]| [1-9])],
    matches it at the start of the text, and rejects unconverted trailing
    text. A group's alternatives are tried in order, each against the rest
    of the pattern. *)

Definition take_digit (s : list ascii) : option (N * list ascii) :=
  match s with
  | c :: r => if is_digit c then Some (digit_val c, r) else None
  | [] => None
  end.

Definition take_digit_in (lo hi : N) (s : list ascii) : option (N * list ascii) :=
  match take_digit s with
  | Some (v, r) => if (lo <=? v) && (v <=? hi) then Some (v, r) else None
  | None => None
  end.

Definition take_char (c : ascii) (s : list ascii) : option (list ascii) :=
  match s with
  | c' :: r => if Ascii.eqb c c' then Some r else None
  | [] => None
  end.

(** Two-character alternative: a first digit in [[a1, a2]], then a digit
    in [[b1, b2]]. *)
Definition two_digits (a1 a2 b1 b2 : N) (s : list ascii) : option (N * list ascii) :=
  match take_digit_in a1 a2 s with
  | Some (a, r) =>
      match take_digit_in b1 b2 r with
      | Some (b, r') => Some (10 * a + b, r')
      | None => None
      end
  | None => None
  end.

Definition space_digit (s : list ascii) : option (N * list ascii) :=
  match take_char " "%char s with
  | Some r => take_digit_in 1 9 r
  | None => None
  end.

(** The first alternative whose match lets the continuation succeed. *)
Fixpoint first_match {A} (alts : list (option (N * list ascii)))
    (k : N -> list ascii -> option A) : option A :=
  match alts with
  | [] => None
  | None :: rest => first_match rest k
  | Some (v, r) :: rest =>
      match k v r with
      | Some a => Some a
      | None => first_match rest k
      end
  end.

Definition re_Y (s : list ascii) : option (N * list ascii) :=
  match take_digit s with
  | Some (a, s1) =>
    match take_digit s1 with
    | Some (b, s2) =>
      match take_digit s2 with
      | Some (c, s3) =>
        match take_digit s3 with
        | Some (d, s4) => Some (1000 * a + 100 * b + 10 * c + d, s4)
        | None => None
        end
      | None => None
      end
    | None => None
    end
  | None => None
  end.

Definition re_m (s : list ascii) : list (option (N * list ascii)) :=
  [ two_digits 1 1 0 2 s; two_digits 0 0 1 9 s; take_digit_in 1 9 s ].

Definition re_d (s : list ascii) : list (option (N * list ascii)) :=
  [ two_digits 3 3 0 1 s; two_digits 1 2 0 9 s; two_digits 0 0 1 9 s;
    take_digit_in 1 9 s; space_digit s ].

(** Month, ["-"], day: the part of the pattern after the year and its
    dash. Yields the month, the day and the unconverted rest. *)
Definition re_md (s : list ascii) : option (N * N * list ascii) :=
  first_match (re_m s) (fun m s1 =>
    match take_char "-"%char s1 with
    | Some s2 => first_match (re_d s2) (fun d s3 => Some (m, d, s3))
    | None => None
    end).

Definition re_Ymd (s : list ascii) : option (N * N * N * list ascii) :=
  match re_Y s with
  | Some (y, s1) =>
      match take_char "-"%char s1 with
      | Some s2 =>
          match re_md s2 with
          | Some (m, d, s3) => Some (y, m, d, s3)
          | None => None
          end
      | None => None
      end
  | None => None
  end.

(** [datetime.strptime(s, "%Y-%m-%d").date()]; every failure is a
    [ValueError]. *)
Definition strptime (s : string) : Res date :=
  match re_Ymd (chars s) with
  | None => Raise (ValueError "time data does not match format")
  | Some (y, m, d, rest) =>
      match rest with
      | _ :: _ => Raise (ValueError "unconverted data remains")
      | [] =>
          if valid_ymd y m d then Ok (mkdate y m d)
          else Raise (ValueError "date value out of range")
      end
  end.

(** *** [strftime]

    [%Y] is the year's decimal digits, not padded (['999'] for the year
    999); [%m] and [%d] are padded to two digits. *)

(** [d.strftime("%Y-%m")] *)
Definition strftime_Ym (d : date) : string :=
  text (digits_of (year d) ++ "-"%char :: zero_pad 2 (month d)).

(** [d.strftime("%Y-%m-%d")] *)
Definition strftime_Ymd (d : date) : string :=
  text (digits_of (year d) ++ "-"%char :: zero_pad 2 (month d)
        ++ "-"%char :: zero_pad 2 (day d)).

End Date.

(** ** [decimal.Decimal] under the default context *)

Module Dec.
Import Text.

(** A finite number is [(-1)^neg * coeff * 10^exp]; the representation is
    not normalised ([1.50] and [1.5] are different values that compare
    equal). *)
Inductive Decimal : Type :=
| Finite (neg : bool) (coeff : N) (exp : Z)
| Infinity (neg : bool)
| NaN (neg : bool) (signaling : bool) (payload : N).

(** [getcontext()]: prec=28, rounding=ROUND_HALF_EVEN, Emin=-999999,
    Emax=999999, clamp=0. *)
Definition prec : N := 28.
Definition Emax : Z := 999999.
Definition Emin : Z := -999999.
Definition Etiny : Z := Emin - (Z.of_N prec - 1).
Definition Etop : Z := Emax - (Z.of_N prec - 1).

(** [Decimal('0')], also what the integer [0] converts to. *)
Definition zero : Decimal := Finite false 0 0.
(** [Decimal('nan')] *)
Definition nan : Decimal := NaN false false 0.

Definition is_nan (d : Decimal) : bool :=
  match d with NaN _ _ _ => true | _ => false end.
Definition is_snan (d : Decimal) : bool :=
  match d with NaN _ true _ => true | _ => false end.

(** *** [Decimal(text)]

    Surrounding whitespace and all underscores are removed, then the text
    must match, case-insensitively and to its end,
    [[-+]? ( \d* (\. \d* )? (E [-+]? \d+)? | Inf(inity)? | s? NaN \d* )]
    with at least one digit in a number. *)

Definition remove_underscores (l : list ascii) : list ascii :=
  List.filter (fun c => negb (Ascii.eqb c "_"%char)) l.

Definition parse_sign (s : list ascii) : bool * list ascii :=
  match s with
  | c :: r =>
      if Ascii.eqb c "-"%char then (true, r)
      else if Ascii.eqb c "+"%char then (false, r)
      else (false, s)
  | [] => (false, s)
  end.

(** [[-+]?\d+] up to the end of the text *)
Definition parse_exponent (s : list ascii) : option Z :=
  let '(neg, r) := parse_sign s in
  let '(ds, rest) := span is_digit r in
  match ds, rest with
  | _ :: _, [] =>
      Some (if neg then (- Z.of_N (digits_value ds))%Z else Z.of_N (digits_value ds))
  | _, _ => None
  end.

Definition parse_number (neg : bool) (s : list ascii) : option Decimal :=
  let '(ip, s1) := span is_digit s in
  let '(fp, s2) :=
    match s1 with
    | c :: r => if Ascii.eqb c "."%char then span is_digit r else ([], s1)
    | [] => ([], s1)
    end in
  match ip ++ fp with
  | [] => None
  | _ :: _ =>
      let e :=
        match s2 with
        | [] => Some 0%Z
        | c :: r =>
            if Ascii.eqb (ascii_lower_char c) "e"%char then parse_exponent r
            else None
        end in
      match e with
      | Some e =>
          Some (Finite neg (digits_value (ip ++ fp)) (e - Z.of_nat (length fp)))
      | None => None
      end
  end.

(** Case-insensitive keyword at the start of [s]; the rest of [s]. *)
Fixpoint keyword (k s : list ascii) : option (list ascii) :=
  match k, s with
  | [], _ => Some s
  | a :: k', c :: s' =>
      if Ascii.eqb a (ascii_lower_char c) then keyword k' s' else None
  | _ :: _, [] => None
  end.

Definition parse_infinity (neg : bool) (s : list ascii) : option Decimal :=
  match keyword (chars "inf") s with
  | Some [] => Some (Infinity neg)
  | Some r =>
      match keyword (chars "inity") r with
      | Some [] => Some (Infinity neg)
      | _ => None
      end
  | None => None
  end.

Definition parse_nan (neg : bool) (s : list ascii) : option Decimal :=
  let '(sig, r) :=
    match keyword (chars "s") s with
    | Some r => (true, r)
    | None => (false, s)
    end in
  match keyword (chars "nan") r with
  | Some diag =>
      if forallb is_digit diag then Some (NaN neg sig (digits_value diag))
      else None
  | None => None
  end.

Definition parse (s : list ascii) : option Decimal :=
  let '(neg, r) := parse_sign s in
  match parse_number neg r with
  | Some d => Some d
  | None =>
      match parse_infinity neg r with
      | Some d => Some d
      | None => parse_nan neg r
      end
  end.

(** [Decimal(s)]; a malformed literal raises [InvalidOperation]. *)
Definition of_str (s : string) : Res Decimal :=
  match parse (remove_underscores (strip_chars (chars s))) with
  | Some d => Ok d
  | None => Raise InvalidOperation
  end.

(** *** [format(d, 'f')] *)

Definition sign_text (neg : bool) : list ascii :=
  if neg then ["-"%char] else [].

Definition or_zero (l : list ascii) : list ascii :=
  match l with [] => ["0"%char] | _ => l end.

Definition with_point (fracpart : list ascii) : list ascii :=
  match fracpart with [] => [] | _ => "."%char :: fracpart end.

Definition format_f_chars (d : Decimal) : list ascii :=
  match d with
  | Infinity neg => sign_text neg ++ chars "Infinity"
  | NaN neg sig p =>
      sign_text neg ++ (if sig then chars "sNaN" else chars "NaN")
      ++ (if p =? 0 then [] else digits_of p)
  | Finite neg c e =>
      (* a zero with a positive exponent is first rescaled to 0e0 *)
      let e := if (c =? 0) && (0 <? e)%Z then 0%Z else e in
      let int := digits_of c in
      let len := Z.of_nat (length int) in
      let dotplace := (e + len)%Z in
      let '(intpart, fracpart) :=
        if (dotplace <? 0)%Z then
          (["0"%char], zeros (Z.to_N (- dotplace)) ++ int)
        else if (len <? dotplace)%Z then
          (int ++ zeros (Z.to_N (dotplace - len)), [])
        else
          (or_zero (take (Z.to_nat dotplace) int), drop (Z.to_nat dotplace) int) in
      sign_text neg ++ intpart ++ with_point fracpart
  end.

Definition format_f (d : Decimal) : string := text (format_f_chars d).

(** *** Rounding to the context: [_fix] *)

(** Drop the [k] low digits of [c], rounding half to even. *)
Definition round_half_even (c : N) (k : N) : N :=
  let p := 10 ^ k in
  let q := c / p in
  let r := c mod p in
  if 2 * r <? p then q
  else if 2 * r =? p then (if N.even q then q else q + 1)
  else q + 1.

Definition _fix (neg : bool) (c : N) (e : Z) : Res Decimal :=
  if c =? 0 then Ok (Finite neg 0 (Z.min (Z.max e Etiny) Emax))
  else
    let exp_min0 := (Z.of_N (ndigits c) + e - Z.of_N prec)%Z in
    if (Etop <? exp_min0)%Z then Raise Overflow
    else
      let exp_min := Z.max exp_min0 Etiny in
      if (e <? exp_min)%Z then
        let q := round_half_even c (Z.to_N (exp_min - e)) in
        let '(q, exp_min) :=
          if prec <? ndigits q then (q / 10, (exp_min + 1)%Z) else (q, exp_min) in
        if (Etop <? exp_min)%Z then Raise Overflow
        else Ok (Finite neg q exp_min)
      else Ok (Finite neg c e).

(** [_fix_nan]: a payload longer than the precision keeps its low digits. *)
Definition fix_nan (neg sig : bool) (p : N) : Decimal :=
  NaN neg sig (if prec <? ndigits p then p mod 10 ^ prec else p).

(** *** Arithmetic *)

Definition signed (neg : bool) (c : N) : Z :=
  if neg then (- Z.of_N c)%Z else Z.of_N c.

(** The integer that [(neg, c, e)] is at the scale [10^m], for [m <= e]. *)
Definition scaled (neg : bool) (c : N) (e m : Z) : Z :=
  (signed neg c * 10 ^ (e - m))%Z.

(** [_check_nans]: a signaling NaN operand raises, a quiet one is the
    result. *)
Definition check_nans (a b : Decimal) : option (Res Decimal) :=
  if is_snan a || is_snan b then Some (Raise InvalidOperation)
  else
    match a, b with
    | NaN neg sig p, _ => Some (Ok (fix_nan neg sig p))
    | _, NaN neg sig p => Some (Ok (fix_nan neg sig p))
    | _, _ => None
    end.

(** [a + b]: the exact sum at the smaller exponent, then [_fix]. *)
Definition add (a b : Decimal) : Res Decimal :=
  match check_nans a b with
  | Some r => r
  | None =>
      match a, b with
      | Infinity s1, Infinity s2 =>
          if Bool.eqb s1 s2 then Ok (Infinity s1) else Raise InvalidOperation
      | Infinity s, _ => Ok (Infinity s)
      | _, Infinity s => Ok (Infinity s)
      | Finite s1 c1 e1, Finite s2 c2 e2 =>
          let e := Z.min e1 e2 in
          if (c1 =? 0) && (c2 =? 0) then _fix (s1 && s2) 0 e
          else
            let z := (scaled s1 c1 e1 e + scaled s2 c2 e2 e)%Z in
            _fix (z <? 0)%Z (Z.abs_N z) e
      | _, _ => Raise InvalidOperation
      end
  end.

(** [copy_negate] *)
Definition negate (d : Decimal) : Decimal :=
  match d with
  | Finite s c e => Finite (negb s) c e
  | Infinity s => Infinity (negb s)
  | NaN s sig p => NaN (negb s) sig p
  end.

(** [a - b] *)
Definition sub (a b : Decimal) : Res Decimal :=
  match check_nans a b with
  | Some r => r
  | None => add a (negate b)
  end.

(** [_cmp] on two non-NaN values. *)
Definition cmp (a b : Decimal) : comparison :=
  match a, b with
  | Infinity s1, Infinity s2 =>
      if Bool.eqb s1 s2 then Eq else if s1 then Lt else Gt
  | Infinity s, _ => if s then Lt else Gt
  | _, Infinity s => if s then Gt else Lt
  | Finite s1 c1 e1, Finite s2 c2 e2 =>
      let m := Z.min e1 e2 in
      Z.compare (scaled s1 c1 e1 m) (scaled s2 c2 e2 m)
  | _, _ => Eq
  end.

(** [a <= b], [a >= b]: an ordering comparison with a NaN raises. *)
Definition le (a b : Decimal) : Res bool :=
  if is_nan a || is_nan b then Raise InvalidOperation
  else Ok (match cmp a b with Gt => false | _ => true end).

Definition ge (a b : Decimal) : Res bool :=
  if is_nan a || is_nan b then Raise InvalidOperation
  else Ok (match cmp a b with Lt => false | _ => true end).


End Dec.

(** ** The Expense entity *)

Import Text.
Export Date(date, mkdate, year, month, day).
Export Dec(Decimal, Finite, Infinity, NaN).

(** [@dataclass class Expense] *)
Record Expense : Type := mkExpense {
  date_ : date;
  category : string;
  amount : Decimal;
  description : string
}.

(** A raw field mapping, [Dict[str, str]]. *)
Abbreviation Row := (gmap string string).

(** [not s] where [s = row.get(k)]: true for a missing key and for the empty
    text. *)
Definition falsy (o : option string) : bool :=
  match o with
  | None => true
  | Some s => is_empty s
  end.

(** [except (KeyError, Exception)] *)
Definition any_Exception (e : exn) : bool := true.

(** [except (InvalidOperation, AttributeError, KeyError)] *)
Definition amount_errors (e : exn) : bool :=
  match e with
  | InvalidOperation | AttributeError => true
  | _ => false
  end.

(** [Expense.from_row] *)
Definition from_row (row : Row) : Res Expense :=
  if decide (row = ∅) then Raise (ValueError "Input row cannot be empty")
  else
    d ← try_except
          (let date_str := row !! "date" in
           if falsy date_str then Raise (ValueError "Missing date")
           else Date.strptime (strip (default "" date_str)))
          any_Exception
          (fun _ => Raise (ValueError "Invalid date format"));
    let category := row !! "category" in
    if falsy category then Raise (ValueError "Missing category")
    else
      let category := strip (default "" category) in
      let desc := row !! "description" in
      if falsy desc then Raise (ValueError "Missing description")
      else
        let desc := strip (default "" desc) in
        amt ← try_except
                (let amt_str := row !! "amount" in
                 if falsy amt_str then Raise (ValueError "Missing amount")
                 else Dec.of_str (strip (default "" amt_str)))
                amount_errors
                (fun _ => Raise (ValueError "Invalid amount"));
        nonpos ← Dec.le amt Dec.zero;
        if nonpos : bool then Raise (ValueError "Amount must be positive")
        else Ok (mkExpense d category amt desc).

(** [Expense.to_row] *)
Definition to_row (e : Expense) : Row :=
  <["date" := Date.strftime_Ymd (date_ e)]>
  (<["category" := category e]>
  (<["amount" := Dec.format_f (amount e)]>
  (<["description" := description e]> ∅))).

(** ** The ledger engine *)

(** The in-memory state of an [ExpenseTracker]. *)
Record Tracker : Type := mkTracker {
  expenses : list Expense;
  budgets : gmap string Decimal
}.

(** What [json.load] returns. A float carries the text [str()] gives it. *)
#[warnings="-register-all"]
Inductive json : Type :=
| JNull
| JBool (b : bool)
| JInt (z : Z)
| JFloat (repr : string)
| JStr (s : string)
| JList (l : list json)
| JObject (items : list (string * json)).

(** The two files. The expense file is the table [csv.reader] yields, one
    list of fields per record; the budget file is [None] when [json.load]
    rejects its text, and the decoded value otherwise. A file that does not
    exist is [None] at the outer level. *)
Record Disk : Type := mkDisk {
  expenses_file : option (list (list string));
  budget_file : option (option json)
}.

Record World : Type := mkWorld {
  self : Tracker;
  disk : Disk
}.

(** A method call: it runs on the object and the files, returns or raises,
    and leaves both behind. *)
Definition M (A : Type) : Type := World -> Res A * World.

#[global] Instance M_ret : MRet M := fun _ a w => (Ok a, w).
#[global] Instance M_bind : MBind M := fun _ _ k m w =>
  match m w with
  | (Ok a, w') => k a w'
  | (Raise e, w') => (Raise e, w')
  end.

Definition raise {A} (e : exn) : M A := fun w => (Raise e, w).
Definition lift {A} (r : Res A) : M A := fun w => (r, w).
Definition get_self : M Tracker := fun w => (Ok (self w), w).
Definition put_self (t : Tracker) : M unit := fun w => (Ok tt, mkWorld t (disk w)).
Definition get_disk : M Disk := fun w => (Ok (disk w), w).
Definition put_disk (d : Disk) : M unit := fun w => (Ok tt, mkWorld (self w) d).

(** [self.expenses.append(exp)] *)
Definition append_expense (exp : Expense) : M unit :=
  t ← get_self; put_self (mkTracker (expenses t ++ [exp]) (budgets t)).

(** [self.budgets = b] *)
Definition assign_budgets (b : gmap string Decimal) : M unit :=
  t ← get_self; put_self (mkTracker (expenses t) b).

(** [ExpenseTracker(...)]: a new engine on the existing files. *)
Definition new_engine (d : Disk) : World := mkWorld (mkTracker [] ∅) d.

(** *** Loading *)

(** [dict(zip(fieldnames, record))], followed by [d[key] = None] for the
    names beyond the end of a short record: a later duplicate of a name
    wins, and a name left without a field loses what an earlier duplicate
    gave it. [from_row] tests every field with [not] before it uses it, so
    it does not tell [None] from the empty text: a name without a field is
    given the empty text here. *)
Fixpoint zip_dict (names values : list string) (acc : Row) : Row :=
  match names, values with
  | n :: names', v :: values' => zip_dict names' values' (<[n := v]> acc)
  | n :: names', [] => zip_dict names' [] (<[n := ""%string]> acc)
  | [], _ => acc
  end.

(** The row of a record read under no field names at all (the file begins
    with an empty line): the reader files the whole record under the key
    [None], which is no text. To [from_row] this is a mapping that is not
    empty and has none of the fields; the row below stands for it. *)
Definition restkey_only : Row := {[ ""%string := ""%string ]}.

(** The rows a [csv.DictReader] yields: the first record names the fields,
    empty records are skipped. The fields of a record beyond the last name
    go under the key [None]; [from_row] reads text keys only, so they are
    left out where the row has a name. *)
Definition DictReader (table : list (list string)) : list Row :=
  match table with
  | [] => []
  | fieldnames :: records =>
      map (fun r => match fieldnames with
                    | [] => restkey_only
                    | _ :: _ => zip_dict fieldnames r ∅
                    end)
          (List.filter (fun r => match r with [] => false | _ => true end) records)
  end.

(** The body of the [for row in reader] loop. *)
Fixpoint load_rows (rows : list Row) (count : N) : M N :=
  match rows with
  | [] => mret count
  | row :: rest =>
      match from_row row with
      | Ok exp => append_expense exp;; load_rows rest (count + 1)
      | Raise e =>
          if is_ValueError e then load_rows rest count else raise e
      end
  end.

(** [ExpenseTracker._load_expenses] *)
Definition _load_expenses : M N :=
  d ← get_disk;
  match expenses_file d with
  | None => mret 0
  | Some table => load_rows (DictReader table) 0
  end.

(** [str(z)] for an integer. *)
Definition str_int (z : Z) : string :=
  text ((if (z <? 0)%Z then ["-"%char] else []) ++ digits_of (Z.abs_N z)).

(** [Decimal(str(v))]. [str()] of a list or a dict opens with a bracket,
    which no numeric text does. *)
Definition decimal_of_json (v : json) : Res Decimal :=
  match v with
  | JStr s => Dec.of_str s
  | JInt z => Dec.of_str (str_int z)
  | JFloat repr => Dec.of_str repr
  | JBool b => Dec.of_str (if b then "True" else "False")
  | JNull => Dec.of_str "None"
  | JList _ | JObject _ => Raise InvalidOperation
  end.

(** [{k: Decimal(str(v)) for k, v in items}] *)
Fixpoint budget_comprehension (items : list (string * json))
    (acc : gmap string Decimal) : Res (gmap string Decimal) :=
  match items with
  | [] => Ok acc
  | (k, v) :: rest =>
      d ← decimal_of_json v;
      budget_comprehension rest (<[k := d]> acc)
  end.

(** The body of the [try] in [_load_budgets], up to the assignment. *)
Definition read_budgets (content : option json) : Res (gmap string Decimal) :=
  match content with
  | None => Raise JSONDecodeError
  | Some (JObject items) => budget_comprehension items ∅
  | Some _ => Raise AttributeError
  end.

(** [ExpenseTracker._load_budgets] *)
Definition _load_budgets : M N :=
  d ← get_disk;
  match budget_file d with
  | None => mret 0
  | Some content =>
      match read_budgets content with
      | Ok b => assign_budgets b;; mret (N.of_nat (size b))
      | Raise _ => assign_budgets ∅;; mret 0
      end
  end.

(** [ExpenseTracker.load] *)
Definition load : M (N * N) :=
  exp_count ← _load_expenses;
  bud_count ← _load_budgets;
  mret (exp_count, bud_count).

(** *** Saving *)

Definition fieldnames : list string :=
  ["date"; "category"; "amount"; "description"]%string.

(** [DictWriter.writerow]: the values in the order of the field names. *)
Definition writerow (r : Row) : list string :=
  map (fun k => default ""%string (r !! k)) fieldnames.

(** [ExpenseTracker._save_expenses] *)
Definition _save_expenses : M unit :=
  t ← get_self;
  d ← get_disk;
  put_disk (mkDisk (Some (fieldnames :: map (fun e => writerow (to_row e)) (expenses t)))
                   (budget_file d)).

(** [{k: format(v, 'f') for k, v in self.budgets.items()}] as the JSON
    object [json.dump] writes. *)
Definition budgets_json (b : gmap string Decimal) : json :=
  JObject (map_to_list ((fun v => JStr (Dec.format_f v)) <$> b)).

(** [ExpenseTracker._save_budgets] *)
Definition _save_budgets : M unit :=
  t ← get_self;
  d ← get_disk;
  put_disk (mkDisk (expenses_file d) (Some (Some (budgets_json (budgets t))))).

(** [ExpenseTracker.save] *)
Definition save : M unit := _save_expenses;; _save_budgets.

(** *** Mutations and queries *)

(** [ExpenseTracker._month_key] *)
Definition _month_key (d : date) : string := Date.strftime_Ym d.

(** [ExpenseTracker.add_expense] *)
Definition add_expense (d : date) (category : string) (amount : Decimal)
    (description : string) : M Expense :=
  let exp := mkExpense d (strip category) amount (strip description) in
  append_expense exp;; mret exp.

(** [if x:] for an optional text: [None] and the empty text are falsy. *)
Definition supplied (o : option string) : bool := negb (falsy o).

(** [ExpenseTracker.list_expenses] *)
Definition list_expenses (month_key cat : option string) : M (list Expense) :=
  t ← get_self;
  let items := expenses t in
  let items :=
    if supplied month_key then
      List.filter (fun e => String.eqb (_month_key (date_ e)) (default "" month_key)) items
    else items in
  let items :=
    if supplied cat then
      List.filter (fun e => String.eqb (lower (category e)) (lower (default "" cat))) items
    else items in
  mret items.

(** [sum(xs, start)] over decimals: a left fold of [+]. *)
Fixpoint sum_from (start : Decimal) (xs : list Decimal) : Res Decimal :=
  match xs with
  | [] => Ok start
  | x :: rest => acc ← Dec.add start x; sum_from acc rest
  end.

(** [ExpenseTracker.total_expenses] *)
Definition total_expenses (month_key : option string) : M Decimal :=
  items ← list_expenses month_key None;
  lift (sum_from Dec.zero (map amount items)).

(** [ExpenseTracker.set_budget] *)
Definition set_budget (month_key : string) (amount : Decimal) : M unit :=
  nonpos ← lift (Dec.le amount Dec.zero);
  if nonpos : bool then raise (ValueError "Budget must be positive")
  else
    t ← get_self;
    assign_budgets (<[month_key := amount]> (budgets t)).

(** [ExpenseTracker.get_budget] *)
Definition get_budget (month_key : string) : M (option Decimal) :=
  t ← get_self; mret (budgets t !! month_key).

(** The dictionary [budget_status] returns. *)
Record Status : Type := mkStatus {
  st_month : string;
  st_budget : Decimal;
  st_total : Decimal;
  st_remaining : Decimal;
  st_status : string
}.

(** [ExpenseTracker.budget_status] *)
Definition budget_status (month_key : string) : M Status :=
  total ← total_expenses (Some month_key);
  budget ← get_budget month_key;
  match budget with
  | None => mret (mkStatus month_key Dec.nan total Dec.nan "no_budget")
  | Some budget =>
      remaining ← lift (Dec.sub budget total);
      within ← lift (Dec.ge remaining Dec.zero);
      let status := if within : bool then "within_budget" else "exceeded_budget" in
      mret (mkStatus month_key budget total remaining status)
  end.

(** [ExpenseTracker.parse_date] *)
Definition parse_date (value : string) : Res date :=
  Date.strptime (strip value).

(** [ExpenseTracker.parse_amount] *)
Definition parse_amount (value : string) : Res Decimal :=
  amt ← Dec.of_str (strip value);
  nonpos ← Dec.le amt Dec.zero;
  if nonpos : bool then Raise (ValueError "Amount must be positive")
  else Ok amt.

(** ** Money

    [format(value, ",.2f")] on a [Decimal]: a special value is written as
    [str()] writes it; a number is first rescaled to two decimals (rounding
    half to even, whatever the context's precision), then written with its
    integer digits in groups of three. *)

Module Fmt.
Import Text.

(** [_rescale(exp, ROUND_HALF_EVEN)] *)
Definition rescale (exp : Z) (d : Decimal) : Decimal :=
  match d with
  | Finite s c e =>
      if c =? 0 then Finite s 0 exp
      else if (exp <=? e)%Z then Finite s (c * 10 ^ Z.to_N (e - exp)) exp
      else Finite s (Dec.round_half_even c (Z.to_N (exp - e))) exp
  | _ => d
  end.

(** Groups of three from the right, on the reversed digits. *)
Fixpoint group_rev (l : list ascii) : list ascii :=
  match l with
  | a :: b :: c :: ((_ :: _) as r) => a :: b :: c :: ","%char :: group_rev r
  | _ => l
  end.

(** [_insert_thousands_sep] for the separator [,] and the grouping [3]. *)
Definition insert_thousands_sep (digits : list ascii) : list ascii :=
  rev (group_rev (rev digits)).

(** The digits before and after the decimal point. *)
Definition split_point (int : list ascii) (e : Z) : list ascii * list ascii :=
  let len := Z.of_nat (length int) in
  let dotplace := (e + len)%Z in
  if (dotplace <? 0)%Z then
    (["0"%char], zeros (Z.to_N (- dotplace)) ++ int)
  else if (len <? dotplace)%Z then
    (int ++ zeros (Z.to_N (dotplace - len)), [])
  else
    (Dec.or_zero (take (Z.to_nat dotplace) int), drop (Z.to_nat dotplace) int).

(** [format(d, ",.2f")] *)
Definition format_comma_2f (d : Decimal) : list ascii :=
  match d with
  | Finite _ _ _ =>
      match rescale (-2) d with
      | Finite neg c e =>
          let '(intpart, fracpart) := split_point (digits_of c) e in
          Dec.sign_text neg ++ insert_thousands_sep intpart
          ++ Dec.with_point fracpart
      | _ => []
      end
  | _ => Dec.format_f_chars d
  end.

(** [-d]: the sign is flipped (a zero loses its sign) and the result is
    rounded to the context. *)
Definition neg (d : Decimal) : Res Decimal :=
  match d with
  | NaN s sig p =>
      if sig then Raise InvalidOperation else Ok (Dec.fix_nan s sig p)
  | Infinity s => Ok (Infinity (negb s))
  | Finite s c e =>
      if c =? 0 then Dec._fix false 0 e else Dec._fix (negb s) c e
  end.

End Fmt.

(** * The command-line program

    [tracker.py]: a menu loop on the standard input and output around one
    engine. *)

(** ** Built-ins *)

Module Py.
Import Text.

(** The newline character. *)
Definition nl : string := String (ascii_of_N 10) EmptyString.

(** [x or y] on texts *)
Definition or_else (x y : string) : string := if is_empty x then y else x.

(** [len(s)] *)
Definition len (s : string) : N := N.of_nat (length (chars s)).

(** [s.split(sep)] for a separator of one character: the pieces between
    the separators, at least one piece. *)
Fixpoint split_chars (sep : ascii) (l : list ascii) : list (list ascii) :=
  match l with
  | [] => [[]]
  | c :: r =>
      if Ascii.eqb c sep then [] :: split_chars sep r
      else
        match split_chars sep r with
        | w :: ws => (c :: w) :: ws
        | [] => [[c]]
        end
  end.

Definition split (sep : ascii) (s : string) : list string :=
  map text (split_chars sep (chars s)).

(** [sep.join(l)] *)
Fixpoint join (sep : string) (l : list string) : string :=
  match l with
  | [] => ""
  | [x] => x
  | x :: r => x +:+ sep +:+ join sep r
  end.

(** The whitespace [int()] skips around a number: that of [str.strip]
    without the four separator controls. *)
Definition is_int_space (c : ascii) : bool :=
  is_space c && negb ((28 <=? code c) && (code c <=? 31)).

Fixpoint skip_int_space (l : list ascii) : list ascii :=
  match l with
  | c :: r => if is_int_space c then skip_int_space r else l
  | [] => []
  end.

(** Digits, with single underscores between digits only. *)
Fixpoint int_digits (l : list ascii) (acc : N) (after_digit : bool) : option N :=
  match l with
  | [] => if after_digit then Some acc else None
  | c :: r =>
      if is_digit c then int_digits r (10 * acc + digit_val c) true
      else if Ascii.eqb c "_"%char && after_digit then int_digits r acc false
      else None
  end.

(** [int(s)]: [None] when it raises [ValueError]. *)
Definition int (s : string) : option Z :=
  let l := rev (skip_int_space (rev (skip_int_space (chars s)))) in
  let '(neg, l) :=
    match l with
    | c :: r =>
        if Ascii.eqb c "-"%char then (true, r)
        else if Ascii.eqb c "+"%char then (false, r)
        else (false, l)
    | [] => (false, l)
    end in
  match int_digits l 0 false with
  | Some n => Some (if neg then (- Z.of_N n)%Z else Z.of_N n)
  | None => None
  end.

(** [str(n)] for a natural number *)
Definition str_N (n : N) : string := text (digits_of n).

Fixpoint spaces (n : nat) : list ascii :=
  match n with
  | O => []
  | S n => " "%char :: spaces n
  end.

(** [format(s, 'w')] for a text: padded with spaces on the right to the
    width [w], never cut. *)
Definition ljust (w : nat) (s : string) : string :=
  s +:+ text (spaces (w - length (chars s))).

(** [format(n, 'w')] for an integer: padded with spaces on the left. *)
Definition rjust (w : nat) (s : string) : string :=
  text (spaces (w - length (chars s))) +:+ s.

(** [s[:n]] *)
Definition prefix (n : nat) (s : string) : string := text (take n (chars s)).

(** [str(d)] for a date: [isoformat], which pads the year to four digits. *)
Definition str_date (d : date) : string :=
  text (zero_pad 4 (Date.year d) ++ "-"%char :: zero_pad 2 (Date.month d)
        ++ "-"%char :: zero_pad 2 (Date.day d)).

(** [d == s] for a [Decimal] and a [str]: neither type knows how to
    compare with the other, and the two objects are not the same object. *)
Definition decimal_eq_str (d : Decimal) (s : string) : bool := false.

End Py.

(** ** Sessions *)

(** The engine with its files, the lines still to be read (after them the
    input is at its end), what has been written so far (oldest first), and
    [date.today()]. *)
Record Session : Type := mkSession {
  world : World;
  stdin : list string;
  stdout : list string;
  today : date
}.

(** How a call ends: it returns; an [Exception] leaves it; [sys.exit]
    leaves it, which no [except Exception] catches. [OutOfFuel] is the
    model's end of a loop that is given too few rounds; [bounded] gives
    every loop enough. *)
Inductive Outcome (A : Type) : Type :=
| Done (a : A)
| Uncaught (e : exn)
| SystemExit (code : Z)
| OutOfFuel.
Arguments Done {A} a.
Arguments Uncaught {A} e.
Arguments SystemExit {A} code.
Arguments OutOfFuel {A}.

Definition IO (A : Type) : Type := Session -> Outcome A * Session.

#[global] Instance IO_ret : MRet IO := fun _ a s => (Done a, s).
#[global] Instance IO_bind : MBind IO := fun _ _ k m s =>
  match m s with
  | (Done a, s') => k a s'
  | (Uncaught e, s') => (Uncaught e, s')
  | (SystemExit c, s') => (SystemExit c, s')
  | (OutOfFuel, s') => (OutOfFuel, s')
  end.

(** A method call on the engine. *)
Definition call {A} (m : M A) : IO A := fun s =>
  match m (world s) with
  | (Ok a, w) => (Done a, mkSession w (stdin s) (stdout s) (today s))
  | (Raise e, w) => (Uncaught e, mkSession w (stdin s) (stdout s) (today s))
  end.

(** A computation without effects that returns or raises. *)
Definition lift_res {A} (r : Res A) : IO A := fun s =>
  match r with
  | Ok a => (Done a, s)
  | Raise e => (Uncaught e, s)
  end.

(** [try: body except Exception as e: handler(e)] *)
Definition try_except_io {A} (body : IO A) (handler : exn -> IO A) : IO A :=
  fun s =>
    match body s with
    | (Uncaught e, s') => handler e s'
    | r => r
    end.

Definition write (chunk : string) : IO unit := fun s =>
  (Done tt, mkSession (world s) (stdin s) (stdout s ++ [chunk]) (today s)).

(** [print(line)] *)
Definition print (line : string) : IO unit := write (line +:+ Py.nl).

Definition out_of_fuel {A} : IO A := fun s => (OutOfFuel, s).

(** [sys.exit(code)] *)
Definition sys_exit {A} (code : Z) : IO A := fun s => (SystemExit code, s).

(** The next line of the input without its newline; [None] at the end of
    the input. *)
Definition read_line : IO (option string) := fun s =>
  match stdin s with
  | line :: rest =>
      (Done (Some line), mkSession (world s) rest (stdout s) (today s))
  | [] => (Done None, s)
  end.

(** [input(text)]: the text is written, a line is read; [None] stands for
    [EOFError]. *)
Definition input (input_text : string) : IO (option string) :=
  write input_text;; read_line.

(** A loop that reads a line in every round, run for one round more than
    there are lines. *)
Definition bounded {A} (loop : nat -> IO A) : IO A :=
  fun s => loop (S (length (stdin s))) s.

(** [prompt] *)
Definition prompt (input_text : string) : IO string :=
  line ← input input_text;
  match line with
  | Some line => mret line
  | None => print (Py.nl +:+ "EOF detected. Exiting...");; sys_exit 0
  end.

(** The [try] block of [choose_month]: whether it completes. *)
Definition month_format_ok (val : string) : bool :=
  match Py.split "-" val with
  | [year; mon] =>
      (Py.len year =? 4) && (Py.len mon =? 2)
      && bool_decide (is_Some (Py.int year))
      && bool_decide (is_Some (Py.int mon))
  | _ => false
  end.

Fixpoint choose_month_rounds (fuel : nat) (default_month : string) : IO string :=
  match fuel with
  | O => out_of_fuel
  | S fuel =>
      line ← prompt ("Enter month (YYYY-MM) [" +:+ default_month +:+ "]: ");
      let val := Py.or_else line default_month in
      if month_format_ok val then mret val
      else
        print "Invalid month format. Please use YYYY-MM (e.g., 2025-01).";;
        choose_month_rounds fuel default_month
  end.

(** [choose_month] *)
Definition choose_month (default_month : option string) : IO string :=
  fun s =>
    let default_month :=
      match default_month with
      | None => Date.strftime_Ym (today s)
      | Some m => m
      end in
    bounded (fun fuel => choose_month_rounds fuel default_month) s.

(** [tracker.default_categories], set by [__init__] and never changed. *)
Definition default_categories : list string :=
  ["Food"; "Travel"; "Groceries"; "Rent"; "Utilities"; "Bills"; "Healthcare";
   "Education"; "Entertainment"; "Shopping"; "Personal Care"; "Miscellaneous"].

(** [str(error)] for what reading the amount [value] raised: the message
    of a [ValueError]; for a signal of the decimal module, the class of
    the condition: a text that is no number, or else a NaN compared. *)
Definition error_text (value : string) (e : exn) : string :=
  match e with
  | ValueError msg => msg
  | _ =>
      if is_ok (Dec.of_str (strip value))
      then "[<class 'decimal.InvalidOperation'>]"
      else "[<class 'decimal.ConversionSyntax'>]"
  end.

(** The three input loops of [add_expense_flow]. *)
Fixpoint read_date (fuel : nat) : IO date :=
  match fuel with
  | O => out_of_fuel
  | S fuel =>
      date_input ← prompt "  Date (YYYY-MM-DD): ";
      match parse_date date_input with
      | Ok expense_date => mret expense_date
      | Raise _ =>
          print "  Invalid date. Use YYYY-MM-DD (e.g., 2025-01-15).";;
          read_date fuel
      end
  end.

Fixpoint read_amount (fuel : nat) : IO Decimal :=
  match fuel with
  | O => out_of_fuel
  | S fuel =>
      amount_input ← prompt "  Amount (numbers only): ";
      match parse_amount amount_input with
      | Ok expense_amount => mret expense_amount
      | Raise error =>
          print ("  " +:+ error_text amount_input error +:+ ". Try again.");;
          read_amount fuel
      end
  end.

Fixpoint read_description (fuel : nat) : IO string :=
  match fuel with
  | O => out_of_fuel
  | S fuel =>
      expense_description ← prompt "  Description: ";
      if negb (is_empty (strip expense_description)) then mret expense_description
      else print "  Description cannot be empty.";; read_description fuel
  end.

(** [save_flow] *)
Definition save_flow : IO unit :=
  call save;; print "  Expenses and budgets saved.".

Definition BANNER : string :=
  Py.nl +:+ "==============================================" +:+ Py.nl
  +:+ "        Personal Expense Tracker (CLI)" +:+ Py.nl
  +:+ "==============================================" +:+ Py.nl.

Definition MENU : string :=
  Py.nl +:+ "What would you like to do?" +:+ Py.nl
  +:+ "  1) Add expense" +:+ Py.nl
  +:+ "  2) View expenses" +:+ Py.nl
  +:+ "  3) Track budget (set/view)" +:+ Py.nl
  +:+ "  4) Save expenses" +:+ Py.nl
  +:+ "  5) Exit" +:+ Py.nl
  +:+ "Choose an option (1-5): ".

(** [tracker = ExpenseTracker()]: a new engine on the files there are. *)
Definition new_tracker : IO unit := fun s =>
  (Done tt, mkSession (new_engine (disk (world s))) (stdin s) (stdout s) (today s)).

Section Currency.

(** [RUPEE = '₹']. The sign is a character outside the code points
    that the texts of this model hold, so it is kept as a variable: what is
    proved of [fmt_money] and of the program that prints with it holds
    whatever the sign is. *)
Variable RUPEE : string.

(** [ExpenseTracker.fmt_money] *)
Definition fmt_money (value : Decimal) : string :=
  RUPEE +:+ text (Fmt.format_comma_2f value).

(** [add_expense_flow] *)
Definition add_expense_flow : IO unit :=
  print (Py.nl +:+ "Add a new expense:");;
  expense_date ← bounded read_date;
  print ("  Category suggestions: " +:+ Py.join ", " default_categories);;
  line ← prompt "  Category: ";
  let expense_category := Py.or_else line "Miscellaneous" in
  expense_amount ← bounded read_amount;
  expense_description ← bounded read_description;
  expense ← call (add_expense expense_date expense_category expense_amount
                    expense_description);
  print (Py.nl +:+ "  Added: " +:+ Py.str_date (date_ expense) +:+ " - "
         +:+ category expense +:+ " - " +:+ fmt_money (amount expense)
         +:+ " - " +:+ description expense).

(** One line of the table of [view_expenses_flow]. *)
Definition table_row (i : N) (e : Expense) : string :=
  let amt := fmt_money (amount e) in
  let desc :=
    if (30 <? Py.len (description e))
    then Py.prefix 28 (description e) +:+ "..."
    else description e in
  "  " +:+ Py.rjust 2 (Py.str_N i) +:+ " " +:+ Py.str_date (date_ e) +:+ "  "
  +:+ Py.ljust 14 (category e) +:+ " " +:+ Py.ljust 13 amt +:+ " " +:+ desc.

(** [for i, e in enumerate(items, start=i): print(...)] *)
Fixpoint print_table (i : N) (items : list Expense) : IO unit :=
  match items with
  | [] => mret tt
  | e :: rest => print (table_row i e);; print_table (i + 1) rest
  end.

(** [view_expenses_flow] *)
Definition view_expenses_flow : IO unit :=
  print (Py.nl +:+ "View expenses:");;
  line ← prompt "  Filter by (a)ll, (m)onth, or (c)ategory? [a/m/c]: ";
  let mode := Py.or_else (lower (strip line)) "a" in
  filter ←
    (if String.eqb mode "m" then
       month ← choose_month None; mret (Some month, None)
     else if String.eqb mode "c" then
       category ← prompt "  Enter category: "; mret (None, Some category)
     else mret (None, None));
  let '(month, category) := filter : option string * option string in
  items ← call (list_expenses month category);
  match items with
  | [] => print "  No expenses found for the selected filter."
  | _ :: _ =>
      print (Py.nl +:+ "  #  Date        Category        Amount        Description");;
      print "  -- ----------- -------------- ------------- ------------------------------";;
      print_table 1 items;;
      total ← call (total_expenses month);
      let scope :=
        if supplied month then "month " +:+ default "" month
        else if supplied category then "category '" +:+ default "" category +:+ "'"
        else "all" in
      print (Py.nl +:+ "  Total for " +:+ scope +:+ ": " +:+ fmt_money total)
  end.

(** The loop of [track_budget_flow] that sets the budget. *)
Fixpoint read_budget (month : string) (fuel : nat) : IO unit :=
  match fuel with
  | O => out_of_fuel
  | S fuel =>
      amt_str ← prompt "  Enter monthly budget amount: ";
      set ← try_except_io
              (amt ← lift_res (parse_amount amt_str);
               call (set_budget month amt);;
               print ("  Budget for " +:+ month +:+ " set to " +:+ fmt_money amt);;
               mret true)
              (fun ex =>
                 print ("  " +:+ error_text amt_str ex +:+ ". Try again.");;
                 mret false);
      if set : bool then mret tt else read_budget month fuel
  end.

(** [track_budget_flow] *)
Definition track_budget_flow : IO unit :=
  print (Py.nl +:+ "Track budget:");;
  month ← choose_month None;
  line ← prompt "  (v)iew status or (s)et budget? [v/s]: ";
  let action := Py.or_else (lower (strip line)) "v" in
  (if String.eqb action "s" then bounded (read_budget month) else mret tt);;
  status ← call (budget_status month);
  let total := st_total status in
  if Py.decimal_eq_str (st_budget status) "not_set" then
    print ("  No budget set for " +:+ month +:+ ". Total spent so far: "
           +:+ fmt_money total)
  else
    let remaining := st_remaining status in
    if String.eqb (st_status status) "exceeded_budget" then
      over ← lift_res (Fmt.neg remaining);
      print ("  You have exceeded your budget for " +:+ month +:+ " by "
             +:+ fmt_money over +:+ ".")
    else
      print ("  You are within budget for " +:+ month +:+ ". Remaining: "
             +:+ fmt_money remaining +:+ ".").

(** The menu loop of [main]. *)
Fixpoint menu (fuel : nat) : IO unit :=
  match fuel with
  | O => out_of_fuel
  | S fuel =>
      line ← prompt MENU;
      let choice := strip line in
      if String.eqb choice "1" then add_expense_flow;; menu fuel
      else if String.eqb choice "2" then view_expenses_flow;; menu fuel
      else if String.eqb choice "3" then track_budget_flow;; menu fuel
      else if String.eqb choice "4" then save_flow;; menu fuel
      else if String.eqb choice "5" then save_flow;; print "Bye!"
      else print "  Invalid option. Please choose 1-5.";; menu fuel
  end.

(** [main] *)
Definition main : IO unit :=
  print BANNER;;
  new_tracker;;
  counts ← call load;
  print ("Loaded " +:+ Py.str_N counts.1 +:+ " previous expenses and "
         +:+ Py.str_N counts.2 +:+ " budgets from disk.");;
  bounded menu.

End Currency.

(** * Definitions used in the statements *)

(** ** Text *)

Definition visible (c : ascii) : bool := negb (is_space c).

(** Neither whitespace nor an underscore. *)
Definition plain (c : ascii) : bool := visible c && negb (Ascii.eqb c "_"%char).


(** Text that neither starts nor ends with whitespace: it is its own
    strip. *)
Definition no_outer_space (l : list ascii) : bool :=
  match l with
  | [] => true
  | c :: _ => negb (is_space c) && negb (is_space (List.last l c))
  end.





(** ** The number a decimal denotes *)













Definition nonpos (d : Decimal) : bool :=
  match d with
  | Finite s c _ => (Dec.signed s c <=? 0)%Z
  | Infinity s => s
  | NaN _ _ _ => false
  end.

(** What [Decimal(format(d, 'f'))] is: a positive exponent is written out
    as zeros. The number denoted is the same. *)
Definition fixed (d : Decimal) : Decimal :=
  match d with
  | Finite s c e => if (0 <? e)%Z then Finite s (c * 10 ^ Z.to_N e) 0 else d
  | _ => d
  end.

(** ** Expenses and rows *)

(** The invariant of the data model: a calendar date, a non-empty trimmed
    category and description, an amount above zero. *)
Definition valid_expense (e : Expense) : Prop :=
  Date.valid (date_ e) = true
  /\ category e <> ""%string /\ strip (category e) = category e
  /\ description e <> ""%string /\ strip (description e) = description e
  /\ Dec.le (amount e) Dec.zero = Ok false.

(** A valid expense whose date [to_row] writes as [from_row] reads it: the
    year has four digits. *)
Definition storable (e : Expense) : Prop :=
  valid_expense e /\ 1000 <= year (date_ e).

(** The expense read back from the row written for [e]. *)
Definition canon (e : Expense) : Expense :=
  mkExpense (date_ e) (category e) (fixed (amount e)) (description e).


(** The expenses that the rows of a table give, in order. *)
Definition valid_rows (rows : list Row) : list Expense :=
  omap (fun r => match from_row r with Ok e => Some e | Raise _ => None end) rows.

(** The filter [list_expenses] applies: a filter that is [None] or the empty
    text is not applied. *)
Definition matches (month_key cat : option string) (e : Expense) : bool :=
  (if supplied month_key
   then String.eqb (_month_key (date_ e)) (default ""%string month_key) else true)
  && (if supplied cat
      then String.eqb (lower (category e)) (lower (default ""%string cat)) else true).


(** ** The engine *)

Definition with_expenses (w : World) (l : list Expense) : World :=
  mkWorld (mkTracker l (budgets (self w))) (disk w).

Definition with_budgets (w : World) (b : gmap string Decimal) : World :=
  mkWorld (mkTracker (expenses (self w)) b) (disk w).

(** The decimal [_load_budgets] makes of a JSON value, if any. *)
Definition json_decimal (j : json) : option Decimal :=
  match decimal_of_json j with Ok d => Some d | Raise _ => None end.

(** A budget file that fails to parse as a whole: undecodable text, a
    document that is not an object, or an object one of whose values is not
    a decimal. *)
Definition unparsable (content : option json) : Prop :=
  content = None
  \/ (exists v, content = Some v /\ forall items, v <> JObject items)
  \/ (exists items k v, content = Some (JObject items) /\ In (k, v) items
                        /\ is_ok (decimal_of_json v) = false).

(** ** Sample data *)

Definition sample_row (d c a ds : string) : Row :=
  <["date" := d]> (<["category" := c]> (<["amount" := a]>
    (<["description" := ds]> ∅)))%string.

Definition lunch : Expense :=
  mkExpense (mkdate 2025 1 15) "Food" (Finite false 25000 (-2)) "Lunch".

Definition dinner : Expense :=
  mkExpense (mkdate 2025 1 20) "Food" (Finite false 195000 (-2)) "Dinner".

Definition february_rent : Expense :=
  mkExpense (mkdate 2025 2 1) "Rent" (Finite false 9000 0) "Rent".



(** January with a budget of 2000.00. *)
Definition january_budget : Decimal := Finite false 200000 (-2).

(** A new engine, no files. *)
Definition empty_world : World := new_engine (mkDisk None None).

Definition budgeted_world (l : list Expense) : World :=
  mkWorld (mkTracker l (<["2025-01"%string := january_budget]> ∅))
          (mkDisk None None).


(** A lunch in the year 999, as [from_row] and the date prompt accept it
    from the text [0999-01-15]. *)
Definition early_lunch : Expense :=
  mkExpense (mkdate 999 1 15) "Food" (Finite false 25000 (-2)) "Lunch".

(** An engine holding three valid expenses, the second dated in the year
    999, and one budget. *)
Definition early_world : World :=
  mkWorld (mkTracker [lunch; early_lunch; dinner]
             (<["2025-01"%string := january_budget]> ∅))
          (mkDisk None None).




(** ** Rows that abort a load *)

(** The messages of the [ValueError]s that leave [from_row]. *)
Definition from_row_messages : list string :=
  ["Input row cannot be empty"; "Invalid date format"; "Missing category";
   "Missing description"; "Missing amount"; "Invalid amount";
   "Amount must be positive"]%string.

(** The amount field of the row is the text of a NaN. *)
Definition nan_amount (row : Row) : bool :=
  match row !! "amount"%string with
  | Some amt =>
      match Dec.of_str (strip amt) with
      | Ok a => Dec.is_nan a
      | Raise _ => false
      end
  | None => false
  end.


(** ** Budgets *)

(** The amount is above zero: not a NaN, and neither zero nor negative. *)
Definition above_zero (d : Decimal) : bool := negb (Dec.is_nan d) && negb (nonpos d).

(** A run of [set_budget] calls whose exceptions the caller catches, as
    the budget dialogue does. *)
Definition set_budgets (calls : list (string * Decimal)) (w : World) : World :=
  fold_left (fun w c => (set_budget c.1 c.2 w).2) calls w.

Definition budgets_positive (w : World) : Prop :=
  forall k v, budgets (self w) !! k = Some v -> above_zero v = true.

(** ** Money *)

Definition not_comma (c : ascii) : bool := negb (Ascii.eqb c ","%char).

(** The text without its commas. *)
Definition remove_commas (l : list ascii) : list ascii := List.filter not_comma l.
(** * Properties *)

(** ** Text and digits *)

Lemma chars_text l : chars (text l) = l.
Proof. apply list_ascii_of_string_of_list_ascii. Qed.

Lemma text_chars s : text (chars s) = s.
Proof. apply string_of_list_ascii_of_string. Qed.

Lemma code_digit_char d : d < 10 -> code (digit_char d) = 48 + d.
Proof.
  intros H. unfold code, digit_char. apply N_ascii_embedding. lia.
Qed.

Lemma is_digit_digit_char d : d < 10 -> is_digit (digit_char d) = true.
Proof.
  intros H. unfold is_digit. rewrite code_digit_char by done.
  apply andb_true_intro; split; apply N.leb_le; lia.
Qed.

Lemma digit_val_digit_char d : d < 10 -> digit_val (digit_char d) = d.
Proof. intros H. unfold digit_val. rewrite code_digit_char by done. lia. Qed.



(** [digits_value] with an explicit accumulator. *)
Lemma fold_digits_app a l1 l2 :
  fold_left (fun a c => 10 * a + digit_val c) (l1 ++ l2) a =
  fold_left (fun a c => 10 * a + digit_val c) l2
    (fold_left (fun a c => 10 * a + digit_val c) l1 a).
Proof. apply fold_left_app. Qed.

Lemma fold_digits_acc l a :
  fold_left (fun a c => 10 * a + digit_val c) l a =
  a * 10 ^ N.of_nat (length l) + digits_value l.
Proof.
  unfold digits_value. revert a. induction l as [|c l IH]; intros a.
  - simpl. lia.
  - cbn [fold_left length]. rewrite IH, (IH (10 * 0 + digit_val c)).
    rewrite Nat2N.inj_succ, N.pow_succ_r'. lia.
Qed.

Lemma digits_value_app l1 l2 :
  digits_value (l1 ++ l2) =
  digits_value l1 * 10 ^ N.of_nat (length l2) + digits_value l2.
Proof.
  unfold digits_value at 1. rewrite fold_digits_app, fold_digits_acc. reflexivity.
Qed.

Lemma digits_value_snoc l c :
  digits_value (l ++ [c]) = 10 * digits_value l + digit_val c.
Proof. rewrite digits_value_app. cbn. lia. Qed.

Lemma digits_aux_acc fuel : forall n acc,
  digits_aux fuel n acc = digits_aux fuel n [] ++ acc.
Proof.
  induction fuel as [|f IH]; intros n acc; cbn [digits_aux].
  - reflexivity.
  - destruct (n <? 10); [reflexivity|].
    rewrite IH, (IH _ [_]), <- app_assoc. reflexivity.
Qed.

Lemma digits_aux_fuel f : forall f' n acc,
  n < 2 ^ N.of_nat f -> n < 2 ^ N.of_nat f' ->
  digits_aux f n acc = digits_aux f' n acc.
Proof.
  induction f as [|f IH]; intros f' n acc Hf Hf'.
  - cbn in Hf. assert (n = 0) by lia. subst n.
    destruct f'; reflexivity.
  - cbn [digits_aux]. destruct (N.ltb_spec n 10) as [Hn|Hn].
    + destruct f'; cbn [digits_aux]; [reflexivity|].
      destruct (N.ltb_spec n 10); [reflexivity|lia].
    + destruct f' as [|f'].
      { cbn in Hf'. lia. }
      cbn [digits_aux]. destruct (N.ltb_spec n 10); [lia|].
      rewrite Nat2N.inj_succ, N.pow_succ_r' in Hf, Hf'.
      apply IH; apply N.Div0.div_lt_upper_bound; lia.
Qed.

Lemma size_bound n : n < 2 ^ N.of_nat (N.to_nat (N.size n)).
Proof. rewrite N2Nat.id. apply N.size_gt. Qed.

Lemma digits_of_small n : n < 10 -> digits_of n = [digit_char n].
Proof.
  intros H. unfold digits_of.
  destruct (N.to_nat (N.size n)); cbn [digits_aux]; [reflexivity|].
  destruct (N.ltb_spec n 10); [reflexivity|lia].
Qed.

Lemma digits_of_step n :
  10 <= n -> digits_of n = digits_of (n / 10) ++ [digit_char (n mod 10)].
Proof.
  intros H. unfold digits_of.
  pose proof (size_bound n) as Hb.
  destruct (N.to_nat (N.size n)) as [|f] eqn:E.
  { cbn in Hb. lia. }
  cbn [digits_aux]. destruct (N.ltb_spec n 10); [lia|].
  rewrite digits_aux_acc. f_equal.
  apply digits_aux_fuel; [|apply size_bound].
  rewrite Nat2N.inj_succ, N.pow_succ_r' in Hb.
  apply N.Div0.div_lt_upper_bound; lia.
Qed.

(** Induction along the decimal digits of a number. *)
Lemma digits_ind (P : N -> Prop) :
  (forall n, n < 10 -> P n) ->
  (forall n, 10 <= n -> P (n / 10) -> P n) ->
  forall n, P n.
Proof.
  intros Hs Hr n. induction n as [n IH] using (well_founded_induction N.lt_wf_0).
  destruct (N.lt_ge_cases n 10) as [H|H]; [auto|].
  apply Hr; [done|]. apply IH. apply N.div_lt; lia.
Qed.

Lemma digits_value_digits_of n : digits_value (digits_of n) = n.
Proof.
  induction n as [n H|n H IH] using digits_ind.
  - rewrite digits_of_small by done. cbn. rewrite digit_val_digit_char by done. lia.
  - rewrite digits_of_step, digits_value_snoc, IH by done.
    rewrite digit_val_digit_char by (apply N.mod_lt; lia).
    symmetry. apply N.div_mod. lia.
Qed.

Lemma digits_of_all_digits n : forallb is_digit (digits_of n) = true.
Proof.
  induction n as [n H|n H IH] using digits_ind.
  - rewrite digits_of_small by done. cbn. rewrite is_digit_digit_char by done. reflexivity.
  - rewrite digits_of_step, forallb_app, IH by done. cbn.
    rewrite is_digit_digit_char by (apply N.mod_lt; lia). reflexivity.
Qed.

Lemma ndigits_small n : n < 10 -> ndigits n = 1.
Proof. intros H. unfold ndigits. rewrite digits_of_small by done. reflexivity. Qed.

Lemma ndigits_step n : 10 <= n -> ndigits n = ndigits (n / 10) + 1.
Proof.
  intros H. unfold ndigits. rewrite digits_of_step by done.
  rewrite length_app. cbn. lia.
Qed.

Lemma ndigits_pos n : 1 <= ndigits n.
Proof.
  induction n as [n H|n H IH] using digits_ind.
  - rewrite ndigits_small by done. lia.
  - rewrite ndigits_step by done. lia.
Qed.

Lemma ndigits_upper n : n < 10 ^ ndigits n.
Proof.
  induction n as [n H|n H IH] using digits_ind.
  - rewrite ndigits_small by done. cbn. lia.
  - rewrite ndigits_step by done. rewrite N.pow_add_r.
    change (10 ^ 1) with 10.
    pose proof (N.div_mod n 10 ltac:(lia)) as H0.
    pose proof (N.mod_lt n 10 ltac:(lia)) as H1.
    revert IH H0 H1. generalize (n mod 10), (n / 10), (10 ^ ndigits (n / 10)). lia.
Qed.

Lemma ndigits_lower n : n <> 0 -> 10 ^ (ndigits n - 1) <= n.
Proof.
  induction n as [n H|n H IH] using digits_ind; intros Hn.
  - rewrite ndigits_small by done. change (10 ^ (1 - 1)) with 1. lia.
  - rewrite ndigits_step by done.
    replace (ndigits (n / 10) + 1 - 1) with (ndigits (n / 10) - 1 + 1)
      by (pose proof (ndigits_pos (n / 10)); lia).
    rewrite N.pow_add_r. change (10 ^ 1) with 10.
    assert (n / 10 <> 0) by (intros E; apply N.div_small_iff in E; lia).
    specialize (IH ltac:(done)).
    pose proof (N.div_mod n 10 ltac:(lia)) as H1.
    revert IH H1. generalize (n mod 10), (n / 10), (10 ^ (ndigits (n / 10) - 1)). lia.
Qed.

Lemma ndigits_le n k : n < 10 ^ k -> 1 <= k -> ndigits n <= k.
Proof.
  intros H Hk. destruct (N.eq_dec n 0) as [->|Hn].
  { rewrite ndigits_small by lia. done. }
  pose proof (ndigits_lower n Hn).
  destruct (N.le_gt_cases (ndigits n) k) as [|Hgt]; [done|exfalso].
  assert (10 ^ k <= 10 ^ (ndigits n - 1)) by (apply N.pow_le_mono_r; lia).
  lia.
Qed.

(** *** [strip] *)

Lemma lstrip_id c l : is_space c = false -> lstrip (c :: l) = c :: l.
Proof. intros H. cbn. rewrite H. reflexivity. Qed.

Lemma rstrip_id l c : is_space c = false -> rstrip (l ++ [c]) = l ++ [c].
Proof.
  intros H. unfold rstrip. rewrite rev_app_distr. cbn [rev app].
  rewrite lstrip_id by done. cbn [rev]. rewrite rev_involutive. reflexivity.
Qed.

Lemma strip_chars_id l : no_outer_space l = true -> strip_chars l = l.
Proof.
  destruct l as [|c l]; [reflexivity|]. unfold no_outer_space.
  intros H. apply andb_prop in H as [H1 H2].
  apply negb_true_iff in H1, H2.
  unfold strip_chars. rewrite lstrip_id by done.
  destruct (exists_last (l := c :: l) ltac:(done)) as (l' & x & E).
  rewrite E in *. rewrite last_last in H2. apply rstrip_id. done.
Qed.

Lemma lstrip_no_space l :
  match lstrip l with [] => True | c :: _ => is_space c = false end.
Proof.
  induction l as [|c l IH]; cbn; [done|].
  destruct (is_space c) eqn:E; [done|]. done.
Qed.

Lemma lstrip_idem l : lstrip (lstrip l) = lstrip l.
Proof.
  pose proof (lstrip_no_space l). destruct (lstrip l); [done|].
  by apply lstrip_id.
Qed.




(** *** [span] *)

Lemma span_all p l t :
  forallb p l = true ->
  match t with [] => True | c :: _ => p c = false end ->
  span p (l ++ t) = (l, t).
Proof.
  intros Hl Ht. induction l as [|c l IH]; cbn.
  - destruct t as [|c t]; [reflexivity|]. cbn. rewrite Ht. reflexivity.
  - cbn in Hl. apply andb_prop in Hl as [Hc Hl]. rewrite Hc, IH by done. reflexivity.
Qed.

Lemma span_spec p l :
  forall a b, span p l = (a, b) ->
  l = a ++ b /\ forallb p a = true /\
  match b with [] => True | c :: _ => p c = false end.
Proof.
  induction l as [|c l IH]; cbn; intros a b H.
  - by inversion H.
  - destruct (p c) eqn:Ec.
    + destruct (span p l) as [a' b'] eqn:E. inversion H; subst.
      destruct (IH _ _ eq_refl) as (-> & Ha & Hb). cbn. rewrite Ec. done.
    + inversion H; subst. cbn. done.
Qed.

Lemma length_zeros k : length (zeros k) = N.to_nat k.
Proof. apply repeat_length. Qed.

Lemma zeros_all_digits k : forallb is_digit (zeros k) = true.
Proof. unfold zeros. induction (N.to_nat k); cbn; [done|]. done. Qed.

Lemma digits_value_zeros k : digits_value (zeros k) = 0.
Proof.
  unfold zeros. induction (N.to_nat k) as [|n IH]; [reflexivity|].
  change (repeat "0"%char (S n)) with (["0"%char] ++ repeat "0"%char n).
  rewrite digits_value_app, IH. change (digits_value ["0"%char]) with 0.
  rewrite N.mul_0_l. reflexivity.
Qed.

Lemma length_digits_of n : N.of_nat (length (digits_of n)) = ndigits n.
Proof. reflexivity. Qed.

Lemma length_zero_pad w n : ndigits n <= w -> length (zero_pad w n) = N.to_nat w.
Proof.
  intros H. unfold zero_pad. rewrite length_app, length_zeros.
  fold (ndigits n). unfold ndigits in *. lia.
Qed.

Lemma zero_pad_all_digits w n : forallb is_digit (zero_pad w n) = true.
Proof.
  unfold zero_pad. rewrite forallb_app, zeros_all_digits, digits_of_all_digits. done.
Qed.

Lemma digits_value_zero_pad w n : digits_value (zero_pad w n) = n.
Proof.
  unfold zero_pad. rewrite digits_value_app, digits_value_zeros, digits_value_digits_of. lia.
Qed.

Lemma is_digit_not_space c : is_digit c = true -> is_space c = false.
Proof.
  unfold is_digit, is_space. intros H. apply andb_prop in H as [H1 H2].
  apply N.leb_le in H1, H2.
  repeat (apply orb_false_intro); try (apply andb_false_iff);
    rewrite ?N.leb_gt, ?N.eqb_neq; lia.
Qed.

Lemma all_visible_no_outer_space l :
  forallb visible l = true -> no_outer_space l = true.
Proof.
  destruct l as [|c l]; [done|]. intros H. unfold no_outer_space.
  assert (Hin : forall x, In x (c :: l) -> visible x = true)
    by (apply forallb_forall; done).
  apply andb_true_intro; split.
  - apply Hin. by left.
  - apply Hin. destruct (exists_last (l := c :: l) ltac:(done)) as (l' & x & E).
    rewrite E, last_last. apply in_or_app. right. by left.
Qed.

Lemma digits_visible l : forallb is_digit l = true -> forallb visible l = true.
Proof.
  induction l as [|c l IH]; cbn; [done|]. intros H.
  apply andb_prop in H as [Hc Hl]. unfold visible at 1.
  rewrite is_digit_not_space, IH by done. done.
Qed.

(** ** Dates *)

Import Date.

Lemma re_Y_digits l rest :
  length l = 4%nat -> forallb is_digit l = true ->
  re_Y (l ++ rest) = Some (digits_value l, rest).
Proof.
  intros Hlen Hd.
  destruct l as [|a [|b [|c [|d [|? ?]]]]]; try discriminate.
  cbn in Hd. repeat (apply andb_prop in Hd as [? Hd]).
  unfold re_Y, take_digit. cbn [app].
  repeat match goal with H : is_digit _ = true |- _ => rewrite H; clear H end.
  f_equal. f_equal. unfold digits_value. cbn [fold_left]. lia.
Qed.

Lemma re_md_pad m d :
  1 <= m <= 12 -> 1 <= d <= 31 ->
  re_md (zero_pad 2 m ++ "-"%char :: zero_pad 2 d) = Some (m, d, []).
Proof.
  intros Hm Hd.
  assert (Em : m = 1 \/ m = 2 \/ m = 3 \/ m = 4 \/ m = 5 \/ m = 6 \/ m = 7
               \/ m = 8 \/ m = 9 \/ m = 10 \/ m = 11 \/ m = 12) by lia.
  assert (Ed : d = 1 \/ d = 2 \/ d = 3 \/ d = 4 \/ d = 5 \/ d = 6 \/ d = 7
               \/ d = 8 \/ d = 9 \/ d = 10 \/ d = 11 \/ d = 12 \/ d = 13
               \/ d = 14 \/ d = 15 \/ d = 16 \/ d = 17 \/ d = 18 \/ d = 19
               \/ d = 20 \/ d = 21 \/ d = 22 \/ d = 23 \/ d = 24 \/ d = 25
               \/ d = 26 \/ d = 27 \/ d = 28 \/ d = 29 \/ d = 30 \/ d = 31) by lia.
  clear Hm Hd.
  repeat (destruct Em as [->|Em]); try subst m;
    repeat (destruct Ed as [->|Ed]); try subst d; vm_compute; reflexivity.
Qed.

Lemma valid_ymd_bounds y m d :
  valid_ymd y m d = true ->
  1 <= y <= 9999 /\ 1 <= m <= 12 /\ 1 <= d <= 31.
Proof.
  unfold valid_ymd. intros H.
  repeat (apply andb_prop in H as [H ?]).
  repeat match goal with H : (_ <=? _) = true |- _ => apply N.leb_le in H end.
  assert (days_in_month y m <= 31).
  { unfold days_in_month. repeat destruct (_ =? _); try destruct (is_leap _); cbn; lia. }
  lia.
Qed.

Lemma re_Ymd_strftime y m d :
  valid_ymd y m d = true ->
  re_Ymd (zero_pad 4 y ++ "-"%char :: zero_pad 2 m ++ "-"%char :: zero_pad 2 d)
  = Some (y, m, d, []).
Proof.
  intros Hv. destruct (valid_ymd_bounds _ _ _ Hv) as (Hy & Hm & Hd).
  unfold re_Ymd. rewrite re_Y_digits.
  - rewrite digits_value_zero_pad. cbn [take_char]. cbn [Ascii.eqb Bool.eqb].
    rewrite re_md_pad by done. reflexivity.
  - rewrite length_zero_pad; [reflexivity|]. apply ndigits_le; [|lia].
    change (10 ^ 4) with 10000. lia.
  - apply zero_pad_all_digits.
Qed.

(** A year from 1000 on has four digits: padding changes nothing. *)
Lemma ndigits_four y : 1000 <= y <= 9999 -> ndigits y = 4.
Proof.
  intros Hy. apply N.le_antisymm.
  - apply ndigits_le; [|lia]. change (10 ^ 4) with 10000. lia.
  - destruct (N.le_gt_cases 4 (ndigits y)) as [|Hlt]; [done|].
    pose proof (ndigits_upper y) as Hu.
    assert (10 ^ ndigits y <= 10 ^ 3) by (apply N.pow_le_mono_r; lia).
    change (10 ^ 3) with 1000 in *. lia.
Qed.

Lemma zero_pad_four y : 1000 <= y <= 9999 -> zero_pad 4 y = digits_of y.
Proof.
  intros Hy. unfold zero_pad. rewrite length_digits_of, ndigits_four by done.
  reflexivity.
Qed.

(** A year below 1000 has fewer than four digits. *)
Lemma ndigits_early y : y < 1000 -> ndigits y < 4.
Proof.
  intros Hy. assert (ndigits y <= 3); [|lia].
  apply ndigits_le; [|lia]. change (10 ^ 3) with 1000. lia.
Qed.

(** [strptime] reads back what [strftime] wrote for a date from the year
    1000 on. *)
Lemma strptime_strftime d :
  valid d = true -> 1000 <= year d -> strptime (strftime_Ymd d) = Ok d.
Proof.
  intros Hv Hy. destruct d as [y m dd]. unfold valid in Hv. cbn in Hv, Hy.
  destruct (valid_ymd_bounds _ _ _ Hv) as (Hy' & _).
  unfold strptime, strftime_Ymd. cbn [year month day].
  rewrite chars_text, <- zero_pad_four by lia.
  replace (zero_pad 4 y ++ "-"%char :: zero_pad 2 m ++ "-"%char :: zero_pad 2 dd)
    with (zero_pad 4 y ++ "-"%char :: (zero_pad 2 m ++ "-"%char :: zero_pad 2 dd))
    by reflexivity.
  rewrite re_Ymd_strftime by done. rewrite Hv. reflexivity.
Qed.

Lemma strftime_Ymd_visible d : forallb visible (chars (strftime_Ymd d)) = true.
Proof.
  unfold strftime_Ymd. rewrite chars_text.
  rewrite forallb_app. cbn [forallb]. rewrite forallb_app. cbn [forallb].
  rewrite (digits_visible (digits_of _)) by apply digits_of_all_digits.
  rewrite !digits_visible by apply zero_pad_all_digits. reflexivity.
Qed.

Lemma strip_strftime_Ymd d : strip (strftime_Ymd d) = strftime_Ymd d.
Proof.
  unfold strip. rewrite strip_chars_id.
  - apply text_chars.
  - apply all_visible_no_outer_space, strftime_Ymd_visible.
Qed.

Lemma strptime_valid s d : strptime s = Ok d -> valid d = true.
Proof.
  unfold strptime. destruct (re_Ymd (chars s)) as [[[[y m] dd] rest]|]; [|done].
  destruct rest; [|done]. destruct (valid_ymd y m dd) eqn:E; [|done].
  intros H. inversion H. exact E.
Qed.

(** ** The engine: running a method *)

Lemma filter_filter_andb {A} (p q : A -> bool) l :
  List.filter q (List.filter p l) = List.filter (fun x => p x && q x) l.
Proof.
  induction l as [|x l IH]; cbn; [done|].
  destruct (p x); cbn; [|done]. destruct (q x); by rewrite IH.
Qed.

Lemma filter_true {A} (l : list A) : List.filter (fun _ => true) l = l.
Proof. induction l; cbn; by f_equal. Qed.


Lemma list_expenses_run w mk cat :
  list_expenses mk cat w = (Ok (List.filter (matches mk cat) (expenses (self w))), w).
Proof.
  unfold list_expenses, matches, mbind, M_bind, get_self, mret, M_ret.
  f_equal. f_equal.
  destruct (supplied mk), (supplied cat); cbn.
  - apply filter_filter_andb.
  - apply filter_ext. intros e. by rewrite andb_true_r.
  - reflexivity.
  - symmetry. apply filter_true.
Qed.

Lemma total_expenses_run w mk :
  total_expenses mk w =
  (sum_from Dec.zero (map amount (List.filter (matches mk None) (expenses (self w)))), w).
Proof.
  unfold total_expenses, mbind, M_bind. rewrite list_expenses_run. reflexivity.
Qed.

Lemma get_budget_run w k : get_budget k w = (Ok (budgets (self w) !! k), w).
Proof. reflexivity. Qed.

Lemma budget_status_world w k : (budget_status k w).2 = w.
Proof.
  unfold budget_status, mbind, M_bind. rewrite total_expenses_run.
  destruct (sum_from _ _) as [total|e]; [|reflexivity].
  rewrite get_budget_run. destruct (budgets (self w) !! k) as [b|]; [|reflexivity].
  unfold lift. destruct (Dec.sub b total) as [r|e]; [|reflexivity].
  destruct (Dec.ge r Dec.zero); reflexivity.
Qed.

(** C10: the queries [list_expenses], [total_expenses], [get_budget] and
    [budget_status] leave the engine as it was, whatever their arguments
    and whether they return or raise: the expenses, the budgets (and the
    files) after the call are those before it. *)
Theorem queries_leave_state_unchanged (w : World) (month_key cat : option string)
    (k : string) :
  (list_expenses month_key cat w).2 = w
  /\ (total_expenses month_key w).2 = w
  /\ (get_budget k w).2 = w
  /\ (budget_status k w).2 = w.
Proof.
  rewrite list_expenses_run, total_expenses_run, get_budget_run.
  repeat split. apply budget_status_world.
Qed.


(** The lower-trust path indeed stores what the parsing path rejects. *)
Example add_expense_unvalidated :
  (add_expense (mkdate 2025 1 15) "   " (Finite true 5 0) "" empty_world).1
  = Ok (mkExpense (mkdate 2025 1 15) "" (Finite true 5 0) "").
Proof. reflexivity. Qed.



(** ** Setting a budget *)

Lemma set_budget_run w k amt :
  set_budget k amt w =
  match Dec.le amt Dec.zero with
  | Ok true => (Raise (ValueError "Budget must be positive"), w)
  | Ok false => (Ok tt, with_budgets w (<[k := amt]> (budgets (self w))))
  | Raise e => (Raise e, w)
  end.
Proof.
  unfold set_budget, mbind, M_bind, lift.
  destruct (Dec.le amt Dec.zero) as [[|]|]; reflexivity.
Qed.

(** A budget above zero is stored under its key, replacing the one that
    was there; [get_budget] then finds it. *)
Lemma set_budget_then_get w k amt :
  Dec.le amt Dec.zero = Ok false ->
  exists w', set_budget k amt w = (Ok tt, w')
             /\ get_budget k w' = (Ok (Some amt), w')
             /\ expenses (self w') = expenses (self w)
             /\ disk w' = disk w.
Proof.
  intros H. eexists. rewrite set_budget_run, H. split; [reflexivity|].
  rewrite get_budget_run. cbn [self budgets with_budgets].
  by rewrite lookup_insert_eq.
Qed.

Example set_budget_rejects_zero :
  (set_budget "2025-01" (Finite false 0 (-2)) empty_world).1
  = Raise (ValueError "Budget must be positive").
Proof. reflexivity. Qed.

(** ** Loading *)

Lemma append_expense_run e w :
  append_expense e w = (Ok tt, with_expenses w (expenses (self w) ++ [e])).
Proof. reflexivity. Qed.

Lemma assign_budgets_run b w : assign_budgets b w = (Ok tt, with_budgets w b).
Proof. reflexivity. Qed.

Lemma load_rows_disk rows : forall c w, disk (load_rows rows c w).2 = disk w.
Proof.
  induction rows as [|row rows IH]; intros c w; cbn [load_rows]; [reflexivity|].
  destruct (from_row row) as [e|e].
  - unfold mbind, M_bind. rewrite append_expense_run, IH. reflexivity.
  - destruct (is_ValueError e); [apply IH|reflexivity].
Qed.

Lemma omap_cons_eq {A B} (f : A -> option B) x l :
  omap f (x :: l) = match f x with Some y => y :: omap f l | None => omap f l end.
Proof. reflexivity. Qed.


(** C3, at the input where it fails: a row whose amount is the text [NaN]
    passes the amount parsing, and the comparison [amt <= 0] then raises
    [InvalidOperation], which [except ValueError] does not catch. [load]
    raises it to the caller, after having appended the rows before it. *)
Theorem load_raises_on_nan_amount :
  let table := [fieldnames;
                ["2025-01-15"; "Food"; "250.00"; "Lunch"];
                ["2025-01-16"; "Food"; "NaN"; "Dinner"];
                ["2025-01-17"; "Food"; "10"; "Tea"]]%string in
  load (new_engine (mkDisk (Some table) None))
  = (Raise InvalidOperation,
     mkWorld (mkTracker [lunch] ∅) (mkDisk (Some table) None)).
Proof. vm_compute. reflexivity. Qed.

(** C2, at the inputs where it fails: a missing date is reported with the
    cause of a malformed one; a category of blanks is accepted and stored
    empty; an amount [NaN] escapes as [InvalidOperation]. *)
Theorem from_row_divergent_causes :
  from_row (<["category" := "Food"]> (<["amount" := "10"]>
              (<["description" := "Lunch"]> ∅)))%string
    = Raise (ValueError "Invalid date format")
  /\ from_row (sample_row "15/01/2025" "Food" "10" "Lunch")
    = Raise (ValueError "Invalid date format")
  /\ from_row (sample_row "2025-01-15" "   " "10" "Lunch")
    = Ok (mkExpense (mkdate 2025 1 15) "" (Finite false 10 0) "Lunch")
  /\ from_row (sample_row "2025-01-15" "Food" "NaN" "Lunch")
    = Raise InvalidOperation.
Proof. repeat split; vm_compute; reflexivity. Qed.

(** The other causes are as documented. *)
Example from_row_documented_causes :
  from_row (sample_row "2025-01-15" "" "10" "Lunch")
    = Raise (ValueError "Missing category")
  /\ from_row (sample_row "2025-01-15" "Food" "10" "")
     = Raise (ValueError "Missing description")
  /\ from_row (sample_row "2025-01-15" "Food" "" "Lunch")
     = Raise (ValueError "Missing amount")
  /\ from_row (sample_row "2025-01-15" "Food" "ten" "Lunch")
     = Raise (ValueError "Invalid amount")
  /\ from_row (sample_row "2025-01-15" "Food" "0" "Lunch")
     = Raise (ValueError "Amount must be positive")
  /\ from_row (sample_row "2025-01-15" "Food" "-5" "Lunch")
     = Raise (ValueError "Amount must be positive")
  /\ from_row (sample_row " 2025-01-15 " " Food " " 250.00 " " Lunch ") = Ok lunch.
Proof. repeat split; vm_compute; reflexivity. Qed.



Lemma budget_comprehension_fails_inv items : forall acc,
  is_ok (budget_comprehension items acc) = false ->
  exists k v, In (k, v) items /\ is_ok (decimal_of_json v) = false.
Proof.
  induction items as [|[k v] items IH]; intros acc H; [done|].
  cbn [budget_comprehension] in H. unfold mbind, Res_bind, res_bind in H.
  destruct (decimal_of_json v) as [d|e] eqn:E.
  - destruct (IH _ H) as (k' & v' & Hin & Hv). exists k', v'. split; [by right|done].
  - exists k, v. split; [by left|]. by rewrite E.
Qed.

(** [unparsable] is exactly when the body of the [try] raises. *)
Lemma read_fails_unparsable content :
  is_ok (read_budgets content) = false -> unparsable content.
Proof.
  destruct content as [v|]; [|by left]. intros H.
  destruct v; try (right; left; eexists; split; [reflexivity|done]).
  right. right. cbn in H.
  destruct (budget_comprehension_fails_inv _ _ H) as (k & v & Hin & Hv).
  by exists items, k, v.
Qed.



(** ** Decimal arithmetic *)





Lemma signed_eq_0 s c : Dec.signed s c = 0%Z <-> c = 0.
Proof. unfold Dec.signed. destruct s; lia. Qed.

Lemma pow10_pos k : (0 < 10 ^ k)%Z \/ (k < 0)%Z.
Proof.
  destruct (Z.lt_ge_cases k 0); [by right|left].
  apply Z.pow_pos_nonneg; lia.
Qed.

Lemma pow10_ge1 k : (0 <= k)%Z -> (1 <= 10 ^ k)%Z.
Proof. intros H. pose proof (Z.pow_pos_nonneg 10 k ltac:(lia) H). lia. Qed.

(** *** [_fix] leaves a value that fits unchanged *)


(** *** Exact additions *)






(** *** From scaled integers to rationals *)

Lemma Qpower10_nonzero k : ~ (Qpower (inject_Z 10) k == 0)%Q.
Proof.
  intros H. apply Qpower_not_0 in H; [done|]. done.
Qed.








(** *** Rounded additions *)







Lemma sum_from_snoc xs : forall s a,
  sum_from s (xs ++ [a]) =
  match sum_from s xs with
  | Ok t => Dec.add t a
  | Raise x => Raise x
  end.
Proof.
  induction xs as [|x xs IH]; intros s a; cbn.
  - unfold mbind, Res_bind, res_bind. by destruct (Dec.add s a).
  - unfold mbind, Res_bind, res_bind. destruct (Dec.add s x); [apply IH|done].
Qed.

(** *** Totals *)




Example total_of_january :
  (total_expenses (Some "2025-01"%string)
     (with_expenses empty_world [lunch; february_rent; dinner])).1
  = Ok (Finite false 220000 (-2)).
Proof. vm_compute. reflexivity. Qed.

Example total_of_nothing :
  (total_expenses (Some "1999-12"%string)
     (with_expenses empty_world [lunch; february_rent; dinner])).1
  = Ok Dec.zero.
Proof. vm_compute. reflexivity. Qed.

(** *** Budget status *)









(** The two scenarios of the specification. *)
Example budget_status_within :
  (budget_status "2025-01" (budgeted_world [lunch])).1
  = Ok (mkStatus "2025-01" january_budget (Finite false 25000 (-2))
          (Finite false 175000 (-2)) "within_budget").
Proof. vm_compute. reflexivity. Qed.

Example budget_status_exceeded :
  (budget_status "2025-01" (budgeted_world [lunch; dinner])).1
  = Ok (mkStatus "2025-01" january_budget (Finite false 220000 (-2))
          (Finite true 20000 (-2)) "exceeded_budget").
Proof. vm_compute. reflexivity. Qed.

(** A total equal to the budget is within it. *)
Example budget_status_equal :
  (budget_status "2025-01"
     (budgeted_world [mkExpense (mkdate 2025 1 3) "Rent" (Finite false 2 3) "Rent"])).1
  = Ok (mkStatus "2025-01" january_budget (Finite false 2000 0)
          (Finite false 0 (-2)) "within_budget").
Proof. vm_compute. reflexivity. Qed.

(** A budget that is a NaN (loadable from the budget file) makes the status
    comparison raise. *)
Example budget_status_nan_budget :
  (budget_status "2025-01"
     (mkWorld (mkTracker [lunch] (<["2025-01"%string := Dec.nan]> ∅))
              (mkDisk None None))).1
  = Raise InvalidOperation.
Proof. vm_compute. reflexivity. Qed.

(** ** Decimal text *)

Lemma of_str_text l :
  Dec.of_str (text l) =
  match Dec.parse (Dec.remove_underscores (strip_chars l)) with
  | Some d => Ok d
  | None => Raise InvalidOperation
  end.
Proof. unfold Dec.of_str. by rewrite chars_text. Qed.

Lemma plain_visible l : forallb plain l = true -> forallb visible l = true.
Proof.
  induction l as [|c l IH]; cbn; [done|]. intros H.
  apply andb_prop in H as [Hc Hl]. unfold plain in Hc.
  apply andb_prop in Hc as [Hv _]. by rewrite Hv, IH.
Qed.

Lemma remove_underscores_plain l :
  forallb plain l = true -> Dec.remove_underscores l = l.
Proof.
  induction l as [|c l IH]; cbn; [done|]. intros H.
  apply andb_prop in H as [Hc Hl]. unfold plain in Hc.
  apply andb_prop in Hc as [_ Hu]. rewrite Hu. f_equal. by apply IH.
Qed.

Lemma plain_text_kept l :
  forallb plain l = true ->
  Dec.remove_underscores (strip_chars l) = l.
Proof.
  intros H. rewrite strip_chars_id.
  - by apply remove_underscores_plain.
  - by apply all_visible_no_outer_space, plain_visible.
Qed.

Lemma is_digit_plain c : is_digit c = true -> plain c = true.
Proof.
  intros H. unfold plain, visible. rewrite is_digit_not_space by done. cbn.
  unfold is_digit in H. apply andb_prop in H as [H1 H2]. apply N.leb_le in H1, H2.
  apply negb_true_iff, Ascii.eqb_neq. intros ->. vm_compute in H2. by apply H2.
Qed.

Lemma digits_plain l : forallb is_digit l = true -> forallb plain l = true.
Proof.
  induction l as [|c l IH]; cbn; [done|]. intros H.
  apply andb_prop in H as [Hc Hl]. by rewrite is_digit_plain, IH.
Qed.

(** *** Parsing a sign and a fixed-point number *)

Lemma is_digit_not_sign c :
  is_digit c = true -> Ascii.eqb c "-"%char = false /\ Ascii.eqb c "+"%char = false.
Proof.
  intros H. unfold is_digit in H. apply andb_prop in H as [H1 H2].
  apply N.leb_le in H1, H2.
  split; apply Ascii.eqb_neq; intros ->; vm_compute in H1; by apply H1.
Qed.

Lemma parse_sign_text s c r :
  Ascii.eqb c "-"%char = false -> Ascii.eqb c "+"%char = false ->
  Dec.parse_sign (Dec.sign_text s ++ c :: r) = (s, c :: r).
Proof.
  intros H1 H2. destruct s; cbn; [done|]. by rewrite H1, H2.
Qed.

Lemma is_digit_not_point c : is_digit c = true -> Ascii.eqb c "."%char = false.
Proof.
  intros H. unfold is_digit in H. apply andb_prop in H as [H1 H2].
  apply N.leb_le in H1, H2.
  apply Ascii.eqb_neq; intros ->; vm_compute in H1; by apply H1.
Qed.

Lemma parse_number_fixed s ip fp :
  ip <> [] -> forallb is_digit ip = true -> forallb is_digit fp = true ->
  Dec.parse_number s (ip ++ Dec.with_point fp)
  = Some (Finite s (digits_value (ip ++ fp)) (- Z.of_nat (length fp))).
Proof.
  intros Hne Hip Hfp. unfold Dec.parse_number.
  destruct fp as [|f fp].
  - cbn [Dec.with_point]. rewrite (span_all is_digit ip []) by done.
    rewrite !app_nil_r. destruct ip; [done|]. reflexivity.
  - cbn [Dec.with_point]. rewrite (span_all is_digit ip ("."%char :: f :: fp)) by done.
    cbn [Ascii.eqb Bool.eqb]. 
    replace (f :: fp) with ((f :: fp) ++ []) at 1 by apply app_nil_r.
    rewrite (span_all is_digit (f :: fp) []) by done.
    destruct (ip ++ f :: fp) eqn:E; [by destruct ip|]. rewrite <- E.
    do 2 f_equal.
Qed.

Lemma parse_fixed_text s ip fp :
  ip <> [] -> forallb is_digit ip = true -> forallb is_digit fp = true ->
  Dec.parse (Dec.sign_text s ++ ip ++ Dec.with_point fp)
  = Some (Finite s (digits_value (ip ++ fp)) (- Z.of_nat (length fp))).
Proof.
  intros Hne Hip Hfp. unfold Dec.parse.
  destruct ip as [|c ip]; [done|].
  pose proof Hip as Hc. cbn in Hc. apply andb_prop in Hc as [Hc _].
  destruct (is_digit_not_sign c Hc) as [H1 H2].
  change ((c :: ip) ++ Dec.with_point fp) with (c :: (ip ++ Dec.with_point fp)).
  rewrite parse_sign_text by done.
  change (c :: (ip ++ Dec.with_point fp)) with ((c :: ip) ++ Dec.with_point fp).
  rewrite parse_number_fixed by done. reflexivity.
Qed.

(** *** The text [format(d, 'f')] writes *)

Lemma digits_of_nonempty c : digits_of c <> [].
Proof.
  pose proof (ndigits_pos c) as H. unfold ndigits in H.
  destruct (digits_of c); [cbn in H; lia|done].
Qed.

Lemma forallb_take_drop {A} (p : A -> bool) n l :
  forallb p l = true -> forallb p (take n l) = true /\ forallb p (drop n l) = true.
Proof.
  intros H. rewrite <- (take_drop n l), forallb_app in H.
  by apply andb_prop in H.
Qed.

(** The integer and fraction digits written for a finite decimal. *)
Lemma format_f_parts s c e :
  exists ip fp,
    Dec.format_f_chars (Finite s c e) = Dec.sign_text s ++ ip ++ Dec.with_point fp
    /\ ip <> [] /\ forallb is_digit ip = true /\ forallb is_digit fp = true
    /\ Finite s (digits_value (ip ++ fp)) (- Z.of_nat (length fp))
       = fixed (Finite s c e).
Proof.
  unfold Dec.format_f_chars.
  set (e' := if (c =? 0) && (0 <? e)%Z then 0%Z else e).
  set (int := digits_of c). set (len := Z.of_nat (length int)).
  pose proof (digits_of_all_digits c) as Hint. fold int in Hint.
  pose proof (digits_value_digits_of c) as Hval. fold int in Hval.
  pose proof (digits_of_nonempty c) as Hne. fold int in Hne.
  assert (Hlen : (0 < len)%Z).
  { pose proof (ndigits_pos c) as Hp. unfold ndigits in Hp. fold int in Hp.
    subst len. lia. }
  clearbody int.
  assert (Hfix : fixed (Finite s c e)
                 = Finite s (if (0 <? e')%Z then c * 10 ^ Z.to_N e' else c)
                            (if (0 <? e')%Z then 0 else e')).
  { unfold fixed. subst e'. destruct (N.eqb_spec c 0) as [->|Hc]; cbn [andb].
    - destruct (Z.ltb_spec 0 e) as [H|H]; cbn [andb].
      + change (0 <? 0)%Z with false. cbv iota. by rewrite N.mul_0_l.
      + destruct (Z.ltb_spec 0 e); [lia|done].
    - destruct (Z.ltb_spec 0 e) as [H|H]; [|done]. reflexivity. }
  rewrite Hfix. clearbody e'. clear Hfix.
  destruct (Z.ltb_spec (e' + len) 0) as [H1|H1].
  - (* 0.000ddd *)
    exists ["0"%char], (zeros (Z.to_N (- (e' + len))) ++ int).
    split; [reflexivity|]. split; [done|]. split; [reflexivity|].
    rewrite forallb_app, zeros_all_digits, Hint. split; [reflexivity|].
    destruct (Z.ltb_spec 0 e'); [lia|].
    f_equal.
    + rewrite digits_value_app, digits_value_app, digits_value_zeros, Hval.
      change (digits_value ["0"%char]) with 0. lia.
    + rewrite length_app, length_zeros. subst len. lia.
  - destruct (Z.ltb_spec len (e' + len)) as [H2|H2].
    + (* ddd000 *)
      exists (int ++ zeros (Z.to_N (e' + len - len))), [].
      split; [by rewrite app_nil_r|]. split; [by destruct int|].
      rewrite forallb_app, zeros_all_digits, Hint. split; [reflexivity|].
      split; [reflexivity|].
      destruct (Z.ltb_spec 0 e'); [|lia].
      f_equal. rewrite app_nil_r, digits_value_app, digits_value_zeros, Hval.
      rewrite length_zeros, N2Nat.id. replace (e' + len - len)%Z with e' by lia. lia.
    + (* dd.ddd *)
      destruct (forallb_take_drop is_digit (Z.to_nat (e' + len)) int Hint) as [Ht Hd].
      exists (Dec.or_zero (take (Z.to_nat (e' + len)) int)),
             (drop (Z.to_nat (e' + len)) int).
      split; [reflexivity|].
      split; [by destruct (take _ int)|].
      split; [by destruct (take _ int)|].
      split; [done|].
      destruct (Z.ltb_spec 0 e'); [lia|].
      f_equal.
      * destruct (take (Z.to_nat (e' + len)) int) eqn:Et.
        -- cbn [Dec.or_zero].
           assert (E0 : Z.to_nat (e' + len) = 0%nat).
           { destruct (Z.to_nat (e' + len)); [done|]. destruct int; done. }
           rewrite E0, drop_0.
           rewrite digits_value_app, Hval. change (digits_value ["0"%char]) with 0. lia.
        -- cbn [Dec.or_zero]. rewrite <- Et, take_drop. exact Hval.
      * rewrite length_drop. subst len. lia.
Qed.

Lemma format_f_plain d : forallb plain (Dec.format_f_chars d) = true.
Proof.
  destruct d as [s c e|s|s sig p].
  - destruct (format_f_parts s c e) as (ip & fp & -> & _ & Hip & Hfp & _).
    rewrite !forallb_app, (digits_plain ip) by done.
    replace (forallb plain (Dec.sign_text s)) with true by (by destruct s).
    destruct fp; [done|]. cbn [Dec.with_point forallb].
    cbn [forallb] in Hfp. apply andb_prop in Hfp as [Ha Hfp].
    rewrite (is_digit_plain a Ha), (digits_plain fp Hfp). reflexivity.
  - by destruct s.
  - cbn [Dec.format_f_chars]. rewrite !forallb_app.
    replace (forallb plain (Dec.sign_text s)) with true by (by destruct s).
    replace (forallb plain (if sig then chars "sNaN" else chars "NaN")) with true
      by (by destruct sig).
    destruct (p =? 0); [done|]. cbn. apply digits_plain, digits_of_all_digits.
Qed.

Lemma parse_number_no_digit s c r :
  is_digit c = false -> Ascii.eqb c "."%char = false ->
  Dec.parse_number s (c :: r) = None.
Proof.
  intros H1 H2. unfold Dec.parse_number. cbn [span]. by rewrite H1, H2.
Qed.

Lemma keyword_head_differs a k c r :
  Ascii.eqb a (ascii_lower_char c) = false -> Dec.keyword (a :: k) (c :: r) = None.
Proof. intros H. cbn. by rewrite H. Qed.

Lemma keyword_head_agrees a k c r :
  Ascii.eqb a (ascii_lower_char c) = true ->
  Dec.keyword (a :: k) (c :: r) = Dec.keyword k r.
Proof. intros H. cbn. by rewrite H. Qed.

Lemma parse_nan_text (s sg : bool) (p : N) :
  Dec.parse (Dec.sign_text s ++ (if sg then chars "sNaN" else chars "NaN")
             ++ (if p =? 0 then [] else digits_of p))
  = Some (NaN s sg p).
Proof.
  set (diag := if p =? 0 then [] else digits_of p).
  assert (Hd : forallb is_digit diag = true).
  { subst diag. destruct (p =? 0); [done|apply digits_of_all_digits]. }
  assert (Hv : digits_value diag = p).
  { subst diag. destruct (N.eqb_spec p 0) as [E|E]; [by rewrite E|].
    apply digits_value_digits_of. }
  clearbody diag. unfold Dec.parse.
  destruct sg.
  - change (chars "sNaN" ++ diag) with ("s"%char :: chars "NaN" ++ diag).
    rewrite parse_sign_text by done.
    rewrite parse_number_no_digit by reflexivity.
    unfold Dec.parse_infinity, Dec.parse_nan.
    change (chars "inf") with ("i"%char :: chars "nf").
    rewrite keyword_head_differs by reflexivity.
    change (chars "s") with ("s"%char :: []).
    rewrite keyword_head_agrees by reflexivity. cbn [Dec.keyword].
    change (chars "NaN" ++ diag) with ("N"%char :: "a"%char :: "N"%char :: diag).
    change (chars "nan") with ("n"%char :: "a"%char :: "n"%char :: []).
    rewrite !keyword_head_agrees by reflexivity. cbn [Dec.keyword].
    by rewrite Hd, Hv.
  - change (chars "NaN" ++ diag) with ("N"%char :: "a"%char :: "N"%char :: diag).
    rewrite parse_sign_text by done.
    rewrite parse_number_no_digit by reflexivity.
    unfold Dec.parse_infinity, Dec.parse_nan.
    change (chars "inf") with ("i"%char :: chars "nf").
    rewrite keyword_head_differs by reflexivity.
    change (chars "s") with ("s"%char :: []).
    rewrite keyword_head_differs by reflexivity.
    change (chars "nan") with ("n"%char :: "a"%char :: "n"%char :: []).
    rewrite !keyword_head_agrees by reflexivity. cbn [Dec.keyword].
    by rewrite Hd, Hv.
Qed.

(** Reading back what [format(d, 'f')] wrote gives [fixed d]. *)
Lemma of_str_format_f d : Dec.of_str (Dec.format_f d) = Ok (fixed d).
Proof.
  unfold Dec.format_f. rewrite of_str_text, plain_text_kept by apply format_f_plain.
  destruct d as [s c e|s|s sig p].
  - destruct (format_f_parts s c e) as (ip & fp & -> & Hne & Hip & Hfp & <-).
    by rewrite parse_fixed_text.
  - by destruct s.
  - cbn [Dec.format_f_chars]. by rewrite parse_nan_text.
Qed.

Lemma strip_format_f d : strip (Dec.format_f d) = Dec.format_f d.
Proof.
  unfold strip, Dec.format_f. rewrite chars_text, strip_chars_id; [done|].
  apply all_visible_no_outer_space, plain_visible, format_f_plain.
Qed.




(** *** Comparisons with zero *)

Lemma le_zero_nonpos d :
  Dec.is_nan d = false -> Dec.le d Dec.zero = Ok (nonpos d).
Proof.
  destruct d as [s c e|s|]; try done; intros _.
  - unfold Dec.le, Dec.zero, Dec.cmp. cbn [Dec.is_nan orb]. f_equal.
    set (m := Z.min e 0).
    assert (Hz : Dec.scaled false 0 0 m = 0%Z).
    { unfold Dec.scaled. cbn [Dec.signed]. apply Z.mul_0_l. }
    rewrite Hz. unfold nonpos, Dec.scaled.
    pose proof (pow10_ge1 (e - m) ltac:(lia)) as HP.
    destruct (Z.compare_spec (Dec.signed s c * 10 ^ (e - m)) 0) as [H|H|H];
      destruct (Z.leb_spec (Dec.signed s c) 0); try reflexivity; nia.
  - by destruct s.
Qed.

Lemma le_zero_inv d b : Dec.le d Dec.zero = Ok b -> Dec.is_nan d = false /\ b = nonpos d.
Proof.
  intros H. destruct (Dec.is_nan d) eqn:E.
  - destruct d; done.
  - rewrite le_zero_nonpos in H by done. by inversion H.
Qed.

Lemma fixed_is_nan d : Dec.is_nan (fixed d) = Dec.is_nan d.
Proof. destruct d as [s c e| |]; try done. cbn. by destruct (0 <? e)%Z. Qed.

Lemma signed_mul s c p : Dec.signed s (c * p) = (Dec.signed s c * Z.of_N p)%Z.
Proof. unfold Dec.signed. destruct s; lia. Qed.

Lemma nonpos_fixed d : nonpos (fixed d) = nonpos d.
Proof.
  destruct d as [s c e| |]; try done. cbn [fixed].
  destruct (Z.ltb_spec 0 e); [|done]. cbn [nonpos].
  rewrite signed_mul.
  assert (0 < Z.of_N (10 ^ Z.to_N e))%Z.
  { apply (N2Z.inj_lt 0), N.neq_0_lt_0, N.pow_nonzero. lia. }
  destruct (Z.leb_spec (Dec.signed s c * Z.of_N (10 ^ Z.to_N e)) 0);
    destruct (Z.leb_spec (Dec.signed s c) 0); try reflexivity; nia.
Qed.

Lemma le_zero_fixed d : Dec.le (fixed d) Dec.zero = Dec.le d Dec.zero.
Proof.
  destruct (Dec.is_nan d) eqn:E.
  - destruct d; done.
  - rewrite !le_zero_nonpos, nonpos_fixed by (by rewrite ?fixed_is_nan). done.
Qed.



(** ** Rows and expenses *)

Lemma is_empty_false s : is_empty s = false <-> s <> ""%string.
Proof. by destruct s. Qed.

Lemma text_nonempty l : l <> [] -> text l <> ""%string.
Proof. by destruct l. Qed.

Lemma strftime_Ymd_nonempty d : Date.strftime_Ymd d <> ""%string.
Proof.
  unfold strftime_Ymd. apply text_nonempty.
  pose proof (digits_of_nonempty (year d)).
  by destruct (digits_of (year d)).
Qed.

Lemma format_f_nonempty d : Dec.format_f d <> ""%string.
Proof.
  unfold Dec.format_f. apply text_nonempty.
  destruct d as [s c e|s|s sg p].
  - destruct (format_f_parts s c e) as (ip & fp & -> & Hne & _).
    destruct s, ip; done.
  - by destruct s.
  - by destruct s, sg.
Qed.

Lemma to_row_lookups e :
  to_row e !! "date"%string = Some (Date.strftime_Ymd (date_ e))
  /\ to_row e !! "category"%string = Some (category e)
  /\ to_row e !! "amount"%string = Some (Dec.format_f (amount e))
  /\ to_row e !! "description"%string = Some (description e).
Proof. unfold to_row. repeat split; by simplify_map_eq. Qed.

Lemma to_row_nonempty e : to_row e <> ∅.
Proof. unfold to_row. apply insert_non_empty. Qed.

(** What a successful [from_row] has read. *)
Lemma from_row_inv (m : Row) (e : Expense) :
  from_row m = Ok e ->
  exists dt cat amt desc,
    m !! "date"%string = Some dt /\ m !! "category"%string = Some cat
    /\ m !! "amount"%string = Some amt /\ m !! "description"%string = Some desc
    /\ dt <> ""%string /\ cat <> ""%string /\ amt <> ""%string /\ desc <> ""%string
    /\ Date.strptime (strip dt) = Ok (date_ e)
    /\ category e = strip cat
    /\ description e = strip desc
    /\ Dec.of_str (strip amt) = Ok (amount e)
    /\ Dec.le (amount e) Dec.zero = Ok false.
Proof.
  unfold from_row. destruct (decide (m = ∅)); [done|].
  unfold mbind, Res_bind, res_bind, try_except.
  destruct (m !! "date"%string) as [dt|] eqn:Ed; [|done].
  cbn [falsy default from_option id].
  destruct (is_empty dt) eqn:Edt; [done|].
  destruct (Date.strptime (strip dt)) as [d|] eqn:Ep; [|done].
  destruct (m !! "category"%string) as [cat|] eqn:Ec; [|done].
  cbn [falsy default from_option id].
  destruct (is_empty cat) eqn:Ecat; [done|].
  destruct (m !! "description"%string) as [desc|] eqn:Eds; [|done].
  cbn [falsy default from_option id].
  destruct (is_empty desc) eqn:Edesc; [done|].
  destruct (m !! "amount"%string) as [amt|] eqn:Ea.
  2:{ cbn. done. }
  cbn [falsy default from_option id].
  destruct (is_empty amt) eqn:Eamt; [done|].
  destruct (Dec.of_str (strip amt)) as [a|x] eqn:Eo.
  2:{ destruct (amount_errors x); done. }
  destruct (Dec.le a Dec.zero) as [[|]|] eqn:El; try done.
  intros H. inversion H; subst. cbn.
  exists dt, cat, amt, desc. rewrite <- !is_empty_false. done.
Qed.

(** Reading back the row written for a valid expense. *)
Lemma from_row_to_row e :
  storable e -> from_row (to_row e) = Ok (canon e).
Proof.
  intros [(Hd & Hc & Hcs & Hds & Hdss & Ha) Hy].
  destruct (to_row_lookups e) as (L1 & L2 & L3 & L4).
  unfold from_row. destruct (decide (to_row e = ∅)) as [E|_].
  { by destruct (to_row_nonempty e). }
  rewrite L1, L2, L3, L4. cbn [falsy default from_option id].
  apply is_empty_false in Hc, Hds.
  pose proof (strftime_Ymd_nonempty (date_ e)) as N1. apply is_empty_false in N1.
  pose proof (format_f_nonempty (amount e)) as N2. apply is_empty_false in N2.
  rewrite N1, N2, Hc, Hds.
  rewrite strip_strftime_Ymd, strptime_strftime by done.
  rewrite strip_format_f, of_str_format_f. cbn [try_except].
  unfold mbind, Res_bind, res_bind.
  rewrite le_zero_fixed, Ha, Hcs, Hdss. reflexivity.
Qed.



(** *** The table [save] writes and [load] reads *)

Lemma zip_writerow e : zip_dict fieldnames (writerow (to_row e)) ∅ = to_row e.
Proof.
  destruct (to_row_lookups e) as (L1 & L2 & L3 & L4).
  unfold writerow, fieldnames. cbn [map]. rewrite L1, L2, L3, L4.
  cbn [default from_option id zip_dict]. unfold to_row.
  apply map_eq. intros k.
  destruct (decide (k = "date"%string)) as [->|]; [by simplify_map_eq|].
  destruct (decide (k = "category"%string)) as [->|]; [by simplify_map_eq|].
  destruct (decide (k = "amount"%string)) as [->|]; [by simplify_map_eq|].
  destruct (decide (k = "description"%string)) as [->|]; by simplify_map_eq.
Qed.





(** *** The budget document [save] writes and [load] reads *)

Lemma budget_comprehension_lookup (L : list (string * json)) :
  forall acc : gmap string Decimal,
  NoDup L.*1 ->
  (forall k j, (k, j) ∈ L -> is_Some (json_decimal j)) ->
  exists r, budget_comprehension L acc = Ok r
    /\ forall k, r !! k =
         match (list_to_map L : gmap string json) !! k with
         | Some j => json_decimal j
         | None => acc !! k
         end.
Proof.
  induction L as [|[k0 j0] L IH]; intros acc Hnd Hok.
  - exists acc. split; [done|]. intros k.
    change (list_to_map []) with (∅ : gmap string json). by rewrite lookup_empty.
  - cbn [fmap list_fmap fst] in Hnd. apply NoDup_cons in Hnd as [Hk0 Hnd].
    destruct (Hok k0 j0 ltac:(left)) as [d0 Hd0].
    unfold json_decimal in Hd0.
    destruct (decimal_of_json j0) as [d|] eqn:Ej; [|done]. inversion Hd0; subst d0.
    destruct (IH (<[k0 := d]> acc) Hnd) as (r & Hr & Hlook).
    { intros k j Hin. apply (Hok k j). by right. }
    exists r. split.
    + cbn [budget_comprehension]. unfold mbind, Res_bind, res_bind.
      rewrite Ej. exact Hr.
    + intros k. rewrite Hlook. cbn [list_to_map foldr curry].
      destruct (decide (k = k0)) as [->|Hne].
      * rewrite lookup_insert_eq.
        rewrite (not_elem_of_list_to_map_1 (M := gmap string) L k0 Hk0).
        rewrite lookup_insert_eq. cbn [snd]. unfold json_decimal. by rewrite Ej.
      * cbn [fst snd]. rewrite !lookup_insert_ne by done. reflexivity.
Qed.



(** *** Save, then load into a new engine *)




(** C6, at the input where it fails: an engine holds three valid expenses,
    the second dated 15 January 999 (the expense that [from_row] makes of a
    row with the date [0999-01-15]). [save] returns and writes that date as
    [999-01-15], the year without leading zeros; [load] in a new engine on
    the same files rejects that row and returns the count 2: the engine then
    holds the two other expenses only, and the one budget. *)
Theorem save_load_loses_early_years :
  from_row (sample_row "0999-01-15" "Food" "250.00" "Lunch") = Ok early_lunch
  /\ Forall valid_expense (expenses (self early_world))
  /\ (save early_world).1 = Ok tt
  /\ expenses_file (disk (save early_world).2)
     = Some [fieldnames;
             ["2025-01-15"; "Food"; "250.00"; "Lunch"];
             ["999-01-15"; "Food"; "250.00"; "Lunch"];
             ["2025-01-20"; "Food"; "1950.00"; "Dinner"]]%string
  /\ from_row (sample_row "999-01-15" "Food" "250.00" "Lunch")
     = Raise (ValueError "Invalid date format")
  /\ load (new_engine (disk (save early_world).2))
     = (Ok (2, 1),
        mkWorld (mkTracker [lunch; dinner] (budgets (self early_world)))
                (disk (save early_world).2)).
Proof.
  split; [vm_compute; reflexivity|]. split.
  { repeat constructor; vm_compute; try done; by intros [=]. }
  split; [vm_compute; reflexivity|]. split; [vm_compute; reflexivity|].
  split; [vm_compute; reflexivity|]. vm_compute. reflexivity.
Qed.

(** *** Plain fixed-point texts *)







(** *** Zero-padded date texts *)





(** [%Y] wants four digits: fewer digits before the dash do not match. *)
Lemma re_Y_early ds rest :
  (length ds < 4)%nat -> re_Y (ds ++ "-"%char :: rest) = None.
Proof.
  intros H. destruct ds as [|a [|b [|c [|d ds]]]]; cbn in H; try lia;
    unfold re_Y, take_digit; cbn [app];
    repeat match goal with
           | |- context [is_digit ?x] =>
               lazymatch x with
               | "-"%char => change (is_digit "-"%char) with false; cbv iota
               | _ => destruct (is_digit x)
               end
           end; reflexivity.
Qed.

(** What [strftime] writes for a date before the year 1000 is rejected by
    [strptime]. *)
Lemma strptime_strftime_early d :
  year d < 1000 ->
  strptime (strftime_Ymd d) = Raise (ValueError "time data does not match format").
Proof.
  intros Hy. unfold strptime, strftime_Ymd. rewrite chars_text.
  unfold re_Ymd. rewrite re_Y_early; [done|].
  pose proof (ndigits_early _ Hy) as Hn.
  rewrite <- length_digits_of in Hn. lia.
Qed.

Lemma strptime_strftime_inv d0 d :
  valid d0 = true -> strptime (strftime_Ymd d0) = Ok d ->
  1000 <= year d0 /\ d = d0.
Proof.
  intros Hv Hp. destruct (N.le_gt_cases 1000 (year d0)) as [Hy|Hy].
  - split; [done|]. rewrite strptime_strftime in Hp by done. by inversion Hp.
  - by rewrite strptime_strftime_early in Hp.
Qed.


(** *** Serialising what was constructed *)






(** * Further properties of the engine *)

(** ** The two ways in: [from_row] and the parsers *)

Lemma parse_amount_inv s a :
  parse_amount s = Ok a <->
  Dec.of_str (strip s) = Ok a /\ Dec.le a Dec.zero = Ok false.
Proof.
  unfold parse_amount, mbind, Res_bind, res_bind. split.
  - destruct (Dec.of_str (strip s)) as [x|]; [|done].
    destruct (Dec.le x Dec.zero) as [[|]|] eqn:E; try done.
    intros H. inversion H; subst. done.
  - intros [-> H]. by rewrite H.
Qed.

Lemma strptime_empty : Date.strptime (strip "") <> Ok (mkdate 0 0 0) /\
  forall d, Date.strptime (strip "") <> Ok d.
Proof. split; [done|]. intros d. done. Qed.

Lemma parse_date_nonempty s d : parse_date s = Ok d -> s <> ""%string.
Proof. intros H ->. by destruct strptime_empty as [_ E], (E d). Qed.

Lemma parse_amount_nonempty s a : parse_amount s = Ok a -> s <> ""%string.
Proof. intros H ->. done. Qed.

(** X1: [from_row] accepts exactly the mappings that have the four fields,
    with a date [parse_date] accepts, an amount [parse_amount] accepts, and
    a category and a description that are not the empty text; the expense
    it returns has the parsed date and amount and the stripped category and
    description. *)
Theorem from_row_accepts_iff (m : Row) (e : Expense) :
  from_row m = Ok e <->
  exists dt cat amt desc,
    m !! "date"%string = Some dt /\ m !! "category"%string = Some cat
    /\ m !! "amount"%string = Some amt /\ m !! "description"%string = Some desc
    /\ cat <> ""%string /\ desc <> ""%string
    /\ parse_date dt = Ok (date_ e)
    /\ parse_amount amt = Ok (amount e)
    /\ category e = strip cat
    /\ description e = strip desc.
Proof.
  split.
  - intros H.
    destruct (from_row_inv m e H)
      as (dt & cat & amt & desc & M1 & M2 & M3 & M4 & _ & N2 & _ & N4
          & Hd & Hc & Hds & Ha & Hpos).
    exists dt, cat, amt, desc. rewrite parse_amount_inv. done.
  - intros (dt & cat & amt & desc & M1 & M2 & M3 & M4 & N2 & N4
            & Hd & Ha & Hc & Hds).
    pose proof (parse_date_nonempty _ _ Hd) as N1.
    pose proof (parse_amount_nonempty _ _ Ha) as N3.
    apply parse_amount_inv in Ha as [Ha Hpos].
    apply is_empty_false in N1, N2, N3, N4.
    unfold from_row. destruct (decide (m = ∅)) as [->|_].
    { by rewrite lookup_empty in M1. }
    rewrite M1, M2, M3, M4. cbn [falsy default from_option id].
    rewrite N1, N2, N3, N4. unfold parse_date in Hd. rewrite Hd, Ha.
    cbn [try_except]. unfold mbind, Res_bind, res_bind. rewrite Hpos.
    destruct e as [d c a ds]. cbn in *. by subst.
Qed.



(** ** What [from_row] raises *)

Lemma le_zero_raises d e :
  Dec.le d Dec.zero = Raise e -> e = InvalidOperation /\ Dec.is_nan d = true.
Proof.
  unfold Dec.le. destruct (Dec.is_nan d); cbn; [|done].
  intros H. by inversion H.
Qed.

Lemma of_str_raises s e : Dec.of_str s = Raise e -> e = InvalidOperation.
Proof.
  unfold Dec.of_str. destruct (Dec.parse _); [done|]. intros H. by inversion H.
Qed.

Lemma from_row_raises_inv (m : Row) (x : exn) :
  from_row m = Raise x ->
  (exists msg, x = ValueError msg /\ In msg from_row_messages)
  \/ (x = InvalidOperation /\ nan_amount m = true).
Proof.
  unfold from_row, nan_amount, from_row_messages.
  destruct (decide (m = ∅)) as [->|_].
  { intros H. inversion H. left. eexists. split; [done|]. cbn. tauto. }
  assert (forall (r : Res date) (k : date -> Res Expense),
            (forall d, k d = Raise x ->
               (exists msg, x = ValueError msg /\ In msg from_row_messages)
               \/ (x = InvalidOperation /\ nan_amount m = true)) ->
            (d ← try_except r any_Exception
                  (fun _ => Raise (ValueError "Invalid date format")); k d)
            = Raise x ->
            (exists msg, x = ValueError msg /\ In msg from_row_messages)
            \/ (x = InvalidOperation /\ nan_amount m = true)) as Hdate.
  { intros r k Hk. destruct r as [d|e]; cbn.
    - apply Hk.
    - intros H. inversion H. left. eexists. split; [done|]. cbn. tauto. }
  apply Hdate. intros d. clear Hdate.
  unfold nan_amount, from_row_messages.
  destruct (falsy (m !! "category"%string)).
  { intros H. inversion H. left. eexists. split; [done|]. cbn. tauto. }
  destruct (falsy (m !! "description"%string)).
  { intros H. inversion H. left. eexists. split; [done|]. cbn. tauto. }
  destruct (m !! "amount"%string) as [amt|]; cbn [falsy default from_option id].
  2:{ intros H. inversion H. left. eexists. split; [done|]. cbn. tauto. }
  destruct (is_empty amt).
  { intros H. inversion H. left. eexists. split; [done|]. cbn. tauto. }
  destruct (Dec.of_str (strip amt)) as [a|e] eqn:Ea; cbn.
  2:{ rewrite (of_str_raises _ _ Ea). cbn.
      intros H. inversion H. left. eexists. split; [done|]. cbn. tauto. }
  unfold mbind, Res_bind, res_bind.
  destruct (Dec.le a Dec.zero) as [[|]|e] eqn:El; try done.
  - intros H. inversion H. left. eexists. split; [done|]. cbn. tauto.
  - destruct (le_zero_raises _ _ El) as [-> Hn].
    intros H. inversion H. by right.
Qed.

(** X3: every exception that leaves [from_row] is a [ValueError] with one of
    seven messages ("Missing date" is never among them: it is replaced by
    "Invalid date format"), except that a row whose amount is the text of a
    NaN can make it raise [InvalidOperation]. *)
Theorem from_row_raises (m : Row) (x : exn) :
  from_row m = Raise x ->
  (exists msg, x = ValueError msg /\ In msg from_row_messages
               /\ msg <> "Missing date"%string)
  \/ (x = InvalidOperation /\ nan_amount m = true).
Proof.
  intros H. destruct (from_row_raises_inv m x H) as [(msg & -> & Hin)|Hn].
  - left. exists msg. repeat split; try done.
    intros ->. cbn in Hin. intuition discriminate.
  - by right.
Qed.

Lemma from_row_raises_witness :
  (exists msg, ValueError "Invalid date format" = ValueError msg
               /\ In msg from_row_messages /\ msg <> "Missing date"%string)
  \/ (ValueError "Invalid date format" = InvalidOperation
      /\ nan_amount (sample_row "" "Food" "10" "Lunch") = true).
Proof.
  apply (from_row_raises (sample_row "" "Food" "10" "Lunch")).
  vm_compute. reflexivity.
Defined.




Lemma no_nan_only_ValueError (rows : list Row) :
  (forall row, In row rows -> nan_amount row = false) ->
  forall row e, In row rows -> from_row row = Raise e -> is_ValueError e = true.
Proof.
  intros H row e Hin E.
  destruct (from_row_raises_inv _ _ E) as [(msg & -> & _)|[_ Hn]]; [done|].
  by rewrite (H row Hin) in Hn.
Qed.



Lemma load_rows_aborts pre : forall bad post x c w,
  (forall row, In row pre -> nan_amount row = false) ->
  from_row bad = Raise x -> is_ValueError x = false ->
  load_rows (pre ++ bad :: post) c w
  = (Raise x, with_expenses w (expenses (self w) ++ valid_rows pre)).
Proof.
  induction pre as [|r pre IH]; intros bad post x c w Hpre Hbad Hx.
  - cbn. rewrite Hbad, Hx. unfold raise, with_expenses.
    rewrite app_nil_r. by destruct w as [[] ?].
  - cbn [app load_rows]. unfold valid_rows. rewrite omap_cons_eq.
    destruct (from_row r) as [e|y] eqn:E.
    + unfold mbind at 1, M_bind. rewrite append_expense_run.
      rewrite (IH bad post x) by (try done; intros; apply Hpre; by right).
      cbn. by rewrite <- app_assoc.
    + assert (is_ValueError y = true) as ->.
      { eapply (no_nan_only_ValueError (r :: pre)); [done|by left|done]. }
      apply IH; try done. intros; apply Hpre; by right.
Qed.

(** X5: a row with a NaN amount (and an acceptable date, category and
    description) aborts the load where it stands: [load] raises
    [InvalidOperation], the rows before it stay appended, the rows after
    it are not read, and the budget file is not read at all. *)
Theorem load_aborts_at_nan_row (w : World) (table : list (list string))
    (pre post : list Row) (bad : Row) :
  expenses_file (disk w) = Some table ->
  DictReader table = pre ++ bad :: post ->
  (forall row, In row pre -> nan_amount row = false) ->
  from_row bad = Raise InvalidOperation ->
  load w
  = (Raise InvalidOperation,
     with_expenses w (expenses (self w) ++ valid_rows pre)).
Proof.
  intros Hf Ht Hpre Hbad.
  unfold load, _load_expenses, mbind, M_bind, get_disk. rewrite Hf, Ht.
  by rewrite (load_rows_aborts pre bad post InvalidOperation).
Qed.

Lemma load_aborts_at_nan_row_witness :
  let table := [fieldnames;
                ["2025-01-15"; "Food"; "250.00"; "Lunch"];
                ["2025-01-16"; "Food"; "nan"; "Dinner"];
                ["2025-01-17"; "Food"; "10"; "Tea"]]%string in
  let w := mkWorld (mkTracker [] (<["2024-12"%string := Finite false 5 2]> ∅))
                   (mkDisk (Some table) (Some (Some (JObject [])))) in
  load w = (Raise InvalidOperation, with_expenses w [lunch]).
Proof.
  intros table w.
  refine (load_aborts_at_nan_row w table
            [sample_row "2025-01-15" "Food" "250.00" "Lunch"]
            [sample_row "2025-01-17" "Food" "10" "Tea"]
            (sample_row "2025-01-16" "Food" "nan" "Dinner") eq_refl _ _ _).
  - vm_compute. reflexivity.
  - intros row [<-|[]]. vm_compute. reflexivity.
  - vm_compute. reflexivity.
Defined.

(** ** Loading budgets *)

Lemma load_budgets_run w :
  _load_budgets w =
  match budget_file (disk w) with
  | None => (Ok 0, w)
  | Some content =>
      match read_budgets content with
      | Ok b => (Ok (N.of_nat (size b)), with_budgets w b)
      | Raise _ => (Ok 0, with_budgets w ∅)
      end
  end.
Proof.
  unfold _load_budgets, mbind, M_bind, get_disk.
  destruct (budget_file (disk w)) as [c|]; [|done].
  destruct (read_budgets c); by rewrite assign_budgets_run.
Qed.

Lemma budget_comprehension_decoded (L : list (string * json)) :
  NoDup L.*1 ->
  (forall k j, (k, j) ∈ L -> is_Some (json_decimal j)) ->
  budget_comprehension L ∅
  = Ok (omap json_decimal (list_to_map L : gmap string json)).
Proof.
  intros Hnd Hall.
  destruct (budget_comprehension_lookup L ∅ Hnd Hall) as (r & -> & Hr).
  f_equal. apply map_eq. intros k. rewrite Hr, lookup_omap.
  destruct ((list_to_map L : gmap string json) !! k); [done|].
  by rewrite lookup_empty.
Qed.

Lemma size_omap_all {A B} (f : A -> option B) (m : gmap string A) :
  (forall k a, m !! k = Some a -> is_Some (f a)) ->
  size (omap f m) = size m.
Proof.
  intros H. rewrite <- !size_dom. f_equal.
  apply set_eq. intros k. rewrite !elem_of_dom, lookup_omap.
  destruct (m !! k) as [a|] eqn:E; cbn.
  - destruct (H k a E) as [b ->]. split; eauto.
  - split; intros [? ?]; done.
Qed.

(** X6: a budget file that holds an object whose values all convert
    replaces the budgets in memory: afterwards the engine holds exactly the
    file's entries, each converted with [Decimal(str(v))]; a budget that was
    only in memory is gone; the count returned is the number of entries;
    expenses and files are untouched. *)
Theorem load_budgets_replaces (w : World) (items : list (string * json)) :
  budget_file (disk w) = Some (Some (JObject items)) ->
  NoDup items.*1 ->
  (forall k j, (k, j) ∈ items -> is_Some (json_decimal j)) ->
  exists b,
    _load_budgets w = (Ok (N.of_nat (length items)), with_budgets w b)
    /\ (forall k j, (k, j) ∈ items -> b !! k = json_decimal j)
    /\ (forall k, k ∉ items.*1 -> b !! k = None)
    /\ size b = length items.
Proof.
  intros Hf Hnd Hall.
  set (m := list_to_map items : gmap string json).
  assert (size (omap json_decimal m) = length items) as Hsize.
  { rewrite size_omap_all.
    - unfold m. rewrite <- size_dom, dom_list_to_map_L, size_list_to_set.
      2: done. by rewrite length_fmap.
    - intros k a E. apply (Hall k). by apply elem_of_list_to_map. }
  exists (omap json_decimal m). repeat split.
  - rewrite load_budgets_run, Hf. cbn [read_budgets].
    rewrite budget_comprehension_decoded by done. fold m. by rewrite Hsize.
  - intros k j Hin. rewrite lookup_omap.
    unfold m. by rewrite (elem_of_list_to_map_1 _ _ _ Hnd Hin).
  - intros k Hk. rewrite lookup_omap. unfold m.
    by rewrite (not_elem_of_list_to_map_1 _ _ Hk).
  - done.
Qed.

Lemma load_budgets_replaces_witness :
  let w := mkWorld (mkTracker [lunch] (<["2024-12"%string := Finite false 5 2]> ∅))
             (mkDisk None (Some (Some (JObject [("2025-01", JStr "2000.00");
                                                ("2025-02", JInt 12000)]%string)))) in
  exists b,
    _load_budgets w = (Ok 2, with_budgets w b)
    /\ b !! "2025-01"%string = Some january_budget
    /\ b !! "2024-12"%string = None.
Proof.
  intros w.
  destruct (load_budgets_replaces w
              [("2025-01", JStr "2000.00"); ("2025-02", JInt 12000)]%string
              eq_refl) as (b & Hb & Hin & Hout & _).
  - apply (bool_decide_unpack _). vm_compute. exact I.
  - intros k j Hin. apply elem_of_cons in Hin as [Hin|Hin].
    + simplify_eq. vm_compute. eauto.
    + apply list_elem_of_singleton in Hin. simplify_eq. vm_compute. eauto.
  - exists b. split; [exact Hb|]. split.
    + apply (Hin "2025-01"%string (JStr "2000.00")). apply list_elem_of_here.
    + apply Hout. apply (bool_decide_unpack _). vm_compute. exact I.
Defined.

(** ** [load] and the files *)

Lemma load_expenses_disk w : disk (_load_expenses w).2 = disk w.
Proof.
  unfold _load_expenses, mbind, M_bind, get_disk.
  destruct (expenses_file (disk w)); [|done]. apply load_rows_disk.
Qed.

Lemma load_budgets_disk w : disk (_load_budgets w).2 = disk w.
Proof.
  rewrite load_budgets_run.
  destruct (budget_file (disk w)) as [c|]; [|done].
  by destruct (read_budgets c).
Qed.

Lemma load_rows_keeps rows : forall c w,
  exists l, self (load_rows rows c w).2 = mkTracker (expenses (self w) ++ l) (budgets (self w)).
Proof.
  induction rows as [|r rows IH]; intros c w; cbn.
  - exists []. rewrite app_nil_r. by destruct w as [[] ?].
  - destruct (from_row r) as [e|x].
    + unfold mbind, M_bind. rewrite append_expense_run.
      destruct (IH (c + 1) (with_expenses w (expenses (self w) ++ [e]))) as [l Hl].
      destruct (load_rows rows (c + 1) _) as [[n|y] w'] eqn:E; cbn in *;
        exists (e :: l); rewrite Hl; by rewrite <- app_assoc.
    + destruct (is_ValueError x); [apply IH|].
      exists []. rewrite app_nil_r. by destruct w as [[] ?].
Qed.

(** X7: [load] only reads: whatever the files hold, and whether it returns
    or raises, both files are afterwards what they were, and the expenses
    held before are still there, in order, at the start of the list. With
    neither file present it returns [(0, 0)] and changes nothing. *)
Theorem load_only_reads (w : World) :
  disk (load w).2 = disk w
  /\ (exists l, expenses (self (load w).2) = expenses (self w) ++ l)
  /\ (expenses_file (disk w) = None -> budget_file (disk w) = None ->
      load w = (Ok (0, 0), w)).
Proof.
  repeat split.
  - unfold load, mbind, M_bind.
    pose proof (load_expenses_disk w) as H1.
    destruct (_load_expenses w) as [[n|x] w1]; cbn in *; [|done].
    pose proof (load_budgets_disk w1) as H2.
    destruct (_load_budgets w1) as [[m|x] w2]; cbn in *; congruence.
  - unfold load, mbind, M_bind.
    assert (exists l, expenses (self (_load_expenses w).2) = expenses (self w) ++ l)
      as [l Hl].
    { unfold _load_expenses, mbind, M_bind, get_disk.
      destruct (expenses_file (disk w)) as [t|].
      - destruct (load_rows_keeps (DictReader t) 0 w) as [l Hl].
        exists l. by rewrite Hl.
      - exists []. by rewrite app_nil_r. }
    destruct (_load_expenses w) as [[n|x] w1]; cbn in *; [|by exists l].
    exists l. rewrite <- Hl. rewrite load_budgets_run.
    destruct (budget_file (disk w1)) as [c|]; [|done].
    by destruct (read_budgets c).
  - intros H1 H2. unfold load, _load_expenses, mbind, M_bind, get_disk.
    rewrite H1. cbn. rewrite load_budgets_run. cbn. by rewrite H2.
Qed.

Lemma load_only_reads_witness : load empty_world = (Ok (0, 0), empty_world).
Proof.
  apply (proj2 (proj2 (load_only_reads empty_world))); reflexivity.
Defined.



(** ** Setting budgets *)

Lemma above_zero_le d : above_zero d = true <-> Dec.le d Dec.zero = Ok false.
Proof.
  unfold above_zero. split.
  - intros [Hn Hp]%andb_true_iff. apply negb_true_iff in Hn, Hp.
    by rewrite le_zero_nonpos, Hp.
  - intros H. destruct (le_zero_inv _ _ H) as [-> <-]. done.
Qed.

(** X9: [set_budget] succeeds exactly when the amount is above zero (not
    zero, not negative, not a NaN). Then [get_budget] of that month returns
    the amount; otherwise nothing at all changes, so an earlier budget of
    the month stays. In both cases the budgets of other months, the
    expenses and the files are untouched. *)
Theorem set_budget_get_budget (w : World) (k : string) (amt : Decimal) :
  let r := set_budget k amt w in
  (r.1 = Ok tt <-> above_zero amt = true)
  /\ (r.1 = Ok tt -> (get_budget k r.2).1 = Ok (Some amt))
  /\ (r.1 <> Ok tt -> r.2 = w)
  /\ (forall k', k' <> k -> (get_budget k' r.2).1 = (get_budget k' w).1)
  /\ expenses (self r.2) = expenses (self w)
  /\ disk r.2 = disk w.
Proof.
  cbn zeta. rewrite set_budget_run, above_zero_le.
  destruct (Dec.le amt Dec.zero) as [[|]|x]; cbn; rewrite ?get_budget_run; cbn.
  - repeat split; try done.
  - repeat split; try done.
    all: try (by rewrite lookup_insert_eq).
    intros k' Hk. rewrite !get_budget_run. cbn. by rewrite lookup_insert_ne.
  - repeat split; try done.
Qed.

Lemma set_budget_get_budget_witness :
  (get_budget "2025-02"
     (set_budget "2025-02" (Finite false 500 0) (budgeted_world [lunch])).2).1
  = Ok (Some (Finite false 500 0))
  /\ (set_budget "2025-01" Dec.zero (budgeted_world [lunch])).2
     = budgeted_world [lunch].
Proof.
  split.
  - pose proof (set_budget_get_budget (budgeted_world [lunch]) "2025-02"
                  (Finite false 500 0)) as H.
    cbv zeta in H. destruct H as (_ & H & _). apply H. vm_compute. reflexivity.
  - pose proof (set_budget_get_budget (budgeted_world [lunch]) "2025-01"
                  Dec.zero) as H.
    cbv zeta in H. destruct H as (_ & _ & H & _). apply H.
    vm_compute. intros [=].
Defined.

Lemma set_budget_keeps_positive k amt w :
  budgets_positive w -> budgets_positive (set_budget k amt w).2.
Proof.
  intros H. rewrite set_budget_run.
  destruct (Dec.le amt Dec.zero) as [[|]|x] eqn:E; cbn; try done.
  intros k' v. cbn. destruct (decide (k' = k)) as [->|Hk].
  - rewrite lookup_insert_eq. intros [= <-]. by apply above_zero_le.
  - rewrite lookup_insert_ne by done. apply H.
Qed.

(** X10: the budgets an engine holds stay above zero under [set_budget]:
    if every budget is above zero, then after any run of [set_budget]
    calls, accepted or rejected, every budget still is; after a run that
    starts with no budgets, every month that has a budget had an accepted
    call. *)
Theorem set_budgets_positive (calls : list (string * Decimal)) (w : World) :
  budgets_positive w ->
  budgets_positive (set_budgets calls w)
  /\ (forall k, budgets (self w) !! k = None ->
        is_Some (budgets (self (set_budgets calls w)) !! k) ->
        exists amt, In (k, amt) calls /\ above_zero amt = true).
Proof.
  revert w. induction calls as [|[k amt] calls IH]; intros w Hw; cbn.
  - split; [done|]. intros k -> [? ?]. done.
  - destruct (IH _ (set_budget_keeps_positive k amt w Hw)) as [IH1 IH2].
    split; [done|]. intros k' Hnone Hsome.
    destruct (budgets (self (set_budget k amt w).2) !! k') as [v|] eqn:E.
    + revert E. rewrite set_budget_run.
      destruct (Dec.le amt Dec.zero) as [[|]|x] eqn:El; cbn; try congruence.
      destruct (decide (k' = k)) as [->|Hk].
      * intros _. exists amt. split; [by left|]. by apply above_zero_le.
      * rewrite lookup_insert_ne by done. congruence.
    + destruct (IH2 k' E Hsome) as (a & Hin & Hp). exists a. split; [by right|done].
Qed.

Lemma set_budgets_positive_witness :
  budgets_positive
    (set_budgets [("2025-01"%string, january_budget);
                  ("2025-01"%string, Finite true 5 0);
                  ("2025-02"%string, Dec.nan)] empty_world).
Proof.
  refine (proj1 (set_budgets_positive _ empty_world _)).
  intros k v. cbn. rewrite lookup_empty. discriminate.
Defined.

Lemma budget_status_run w k :
  (budget_status k w).1 =
  match (total_expenses (Some k) w).1 with
  | Raise x => Raise x
  | Ok t =>
      match budgets (self w) !! k with
      | None => Ok (mkStatus k Dec.nan t Dec.nan "no_budget")
      | Some b =>
          match Dec.sub b t with
          | Raise x => Raise x
          | Ok r =>
              match Dec.ge r Dec.zero with
              | Raise x => Raise x
              | Ok within =>
                  Ok (mkStatus k b t r
                        (if within then "within_budget" else "exceeded_budget"))
              end
          end
      end
  end.
Proof.
  unfold budget_status, mbind at 1, M_bind at 1.
  rewrite !total_expenses_run. cbn [fst].
  destruct (sum_from _ _) as [t|x]; [|done].
  unfold mbind, M_bind. rewrite get_budget_run.
  destruct (budgets (self w) !! k); [|done].
  unfold lift. destruct (Dec.sub _ t) as [r|x]; [|done].
  by destruct (Dec.ge r Dec.zero).
Qed.

Lemma total_expenses_with_budgets w b mk :
  (total_expenses mk (with_budgets w b)).1 = (total_expenses mk w).1.
Proof. by rewrite !total_expenses_run. Qed.

(** X11: once [set_budget] has accepted an amount for a month,
    [budget_status] of that month never answers "no_budget": when it
    returns, it reports that amount as the budget, the same total as before
    the call, and their difference as the remainder; the status of every
    other month is what it was. *)
Theorem set_budget_then_status (w : World) (k : string) (amt : Decimal) :
  above_zero amt = true ->
  let w' := (set_budget k amt w).2 in
  (forall st, (budget_status k w').1 = Ok st ->
     st_budget st = amt
     /\ st_status st <> "no_budget"%string
     /\ (total_expenses (Some k) w).1 = Ok (st_total st)
     /\ Dec.sub amt (st_total st) = Ok (st_remaining st))
  /\ (forall k', k' <> k -> (budget_status k' w').1 = (budget_status k' w).1).
Proof.
  intros Hp w'. unfold w'. rewrite set_budget_run.
  apply above_zero_le in Hp as Hle. rewrite Hle. cbn [snd]. split.
  - intros st. rewrite budget_status_run, total_expenses_with_budgets.
    destruct (total_expenses (Some k) w).1 as [t|x]; [|done].
    cbn. rewrite lookup_insert_eq.
    destruct (Dec.sub amt t) as [r|x] eqn:Es; [|done].
    destruct (Dec.ge r Dec.zero) as [[]|x]; [| |done]; by intros [= <-].
  - intros k' Hk. rewrite !budget_status_run, total_expenses_with_budgets.
    cbn. by rewrite lookup_insert_ne.
Qed.

Lemma set_budget_then_status_witness :
  let w' := (set_budget "2025-01" january_budget
               (with_expenses empty_world [lunch])).2 in
  let st := mkStatus "2025-01" january_budget (Finite false 25000 (-2))
              (Finite false 175000 (-2)) "within_budget" in
  (budget_status "2025-01" w').1 = Ok st
  /\ st_budget st = january_budget
  /\ st_status st <> "no_budget"%string
  /\ (total_expenses (Some "2025-01"%string)
        (with_expenses empty_world [lunch])).1 = Ok (st_total st)
  /\ Dec.sub january_budget (st_total st) = Ok (st_remaining st).
Proof.
  assert ((budget_status "2025-01"
             (set_budget "2025-01" january_budget
                (with_expenses empty_world [lunch])).2).1
          = Ok (mkStatus "2025-01" january_budget (Finite false 25000 (-2))
                  (Finite false 175000 (-2)) "within_budget")) as Hst
    by (vm_compute; reflexivity).
  split; [exact Hst|].
  refine (proj1 (set_budget_then_status (with_expenses empty_world [lunch])
                   "2025-01" january_budget _) _ Hst).
  vm_compute. reflexivity.
Defined.

(** ** Adding an expense, then asking *)


Lemma zero_pad_nonempty w n : zero_pad w n <> [].
Proof.
  unfold zero_pad. intros H. apply app_eq_nil in H as [_ H].
  by apply digits_of_nonempty in H.
Qed.

Lemma month_key_nonempty d : _month_key d <> ""%string.
Proof.
  unfold _month_key, strftime_Ym. apply text_nonempty.
  intros H. apply app_eq_nil in H as [H _]. by apply digits_of_nonempty in H.
Qed.

Lemma supplied_month_key d : supplied (Some (_month_key d)) = true.
Proof.
  unfold supplied. cbn. apply negb_true_iff, is_empty_false, month_key_nonempty.
Qed.

Lemma add_expense_run d c a ds w :
  add_expense d c a ds w
  = (Ok (mkExpense d (strip c) a (strip ds)),
     with_expenses w (expenses (self w) ++ [mkExpense d (strip c) a (strip ds)])).
Proof.
  unfold add_expense, mbind, M_bind. by rewrite append_expense_run.
Qed.

(** X12: after [add_expense], the listing of the expense's own month is the
    old listing followed by the new expense, and the month's total is the
    old total plus the amount (one more decimal addition, so it raises or
    rounds as that addition does); the listing and the total of any other
    (non-empty) month key are unchanged. *)
Theorem add_expense_then_queries (w : World) (d : date) (c : string)
    (a : Decimal) (ds : string) :
  let w' := (add_expense d c a ds w).2 in
  let e := mkExpense d (strip c) a (strip ds) in
  let k := _month_key d in
  (forall l, (list_expenses (Some k) None w).1 = Ok l ->
     (list_expenses (Some k) None w').1 = Ok (l ++ [e]))
  /\ (forall t, (total_expenses (Some k) w).1 = Ok t ->
        (total_expenses (Some k) w').1 = Dec.add t a)
  /\ (forall t, (total_expenses None w).1 = Ok t ->
        (total_expenses None w').1 = Dec.add t a)
  /\ (forall k', k' <> ""%string -> k' <> k ->
        (list_expenses (Some k') None w').1 = (list_expenses (Some k') None w).1
        /\ (total_expenses (Some k') w').1 = (total_expenses (Some k') w).1).
Proof.
  cbn zeta. rewrite add_expense_run. cbn [snd].
  set (e := mkExpense d (strip c) a (strip ds)).
  assert (matches (Some (_month_key d)) None e = true) as Hme.
  { unfold matches. rewrite supplied_month_key. cbn.
    by rewrite String.eqb_refl. }
  split; [|split; [|split]].
  - intros l. rewrite !list_expenses_run. cbn.
    rewrite List.filter_app. cbn [List.filter]. rewrite Hme. by intros [= <-].
  - intros t. rewrite !total_expenses_run. cbn.
    rewrite List.filter_app. cbn [List.filter]. rewrite Hme.
    rewrite map_app. cbn [map]. rewrite sum_from_snoc. by intros ->.
  - intros t. rewrite !total_expenses_run. cbn.
    rewrite List.filter_app. cbn [List.filter matches supplied falsy negb andb].
    rewrite map_app. cbn [map]. rewrite sum_from_snoc. by intros ->.
  - intros k' Hne Hk.
    assert (matches (Some k') None e = false) as Hno.
    { unfold matches, supplied. cbn.
      apply is_empty_false in Hne. rewrite Hne. cbn.
      rewrite andb_true_r. apply String.eqb_neq. congruence. }
    rewrite !list_expenses_run, !total_expenses_run. cbn.
    rewrite List.filter_app. cbn [List.filter]. rewrite Hno.
    by rewrite app_nil_r.
Qed.

Lemma add_expense_then_queries_witness :
  let w := with_expenses empty_world [lunch] in
  let w' := (add_expense (mkdate 2025 1 20) " Food" (Finite false 195000 (-2))
               "Dinner " w).2 in
  (list_expenses (Some "2025-01"%string) None w').1 = Ok ([lunch] ++ [dinner])
  /\ (total_expenses (Some "2025-01"%string) w').1
     = Dec.add (Finite false 25000 (-2)) (Finite false 195000 (-2))
  /\ (list_expenses (Some "2025-02"%string) None w').1
     = (list_expenses (Some "2025-02"%string) None w).1.
Proof.
  pose proof (add_expense_then_queries (with_expenses empty_world [lunch])
                (mkdate 2025 1 20) " Food" (Finite false 195000 (-2)) "Dinner ")
    as H.
  cbv zeta in H. destruct H as (Hl & Ht & _ & Ho).
  split; [apply (Hl [lunch]); vm_compute; reflexivity|].
  split; [apply Ht; vm_compute; reflexivity|].
  apply (Ho "2025-02"%string); vm_compute; intros [=].
Defined.

(** ** Month keys *)

Lemma length_zero_pad_nat w n :
  ndigits n <= w -> length (zero_pad w n) = N.to_nat w.
Proof. apply length_zero_pad. Qed.

Lemma valid_ndigits d :
  valid d = true -> ndigits (year d) <= 4 /\ ndigits (month d) <= 2
                    /\ ndigits (day d) <= 2.
Proof.
  intros H. apply valid_ymd_bounds in H as (Hy & Hm & Hd).
  repeat split; apply ndigits_le; lia.
Qed.

Lemma text_inj l1 l2 : text l1 = text l2 -> l1 = l2.
Proof. intros H. by rewrite <- (chars_text l1), <- (chars_text l2), H. Qed.

(** X13: for calendar dates, two month keys are equal exactly when the
    dates lie in the same month of the same year, and the month key of a
    date is the beginning of the date text that [to_row] writes. The key
    has the seven characters of [YYYY-MM] exactly when the year is 1000 or
    later: the year is written without leading zeros. *)
Theorem month_key_same_month (d1 d2 : date) :
  valid d1 = true -> valid d2 = true ->
  (_month_key d1 = _month_key d2 <-> year d1 = year d2 /\ month d1 = month d2)
  /\ (length (chars (_month_key d1)) = 7%nat <-> 1000 <= year d1)
  /\ take (length (chars (_month_key d1))) (chars (strftime_Ymd d1))
     = chars (_month_key d1).
Proof.
  intros H1 H2.
  destruct (valid_ndigits d1 H1) as (Hy1 & Hm1 & _).
  destruct (valid_ndigits d2 H2) as (Hy2 & Hm2 & _).
  pose proof (length_zero_pad 2 (month d1) Hm1) as Lm1.
  pose proof (length_zero_pad 2 (month d2) Hm2) as Lm2.
  pose proof (length_digits_of (year d1)) as Ly1.
  unfold _month_key, strftime_Ym, strftime_Ymd. rewrite !chars_text.
  split; [|split].
  - split.
    + intros H. apply text_inj in H.
      apply app_inj_2 in H as [Ey Em]; [|cbn [length]; congruence].
      injection Em as Em. split.
      * by rewrite <- (digits_value_digits_of (year d1)),
                   <- (digits_value_digits_of (year d2)), Ey.
      * by rewrite <- (digits_value_zero_pad 2 (month d1)),
                   <- (digits_value_zero_pad 2 (month d2)), Em.
    + by intros [-> ->].
  - rewrite length_app. cbn [length]. rewrite Lm1.
    destruct (valid_ymd_bounds _ _ _ H1) as (Hy & _).
    split.
    + intros Hl. destruct (N.le_gt_cases 1000 (year d1)) as [|Hlt]; [done|].
      apply ndigits_early in Hlt. lia.
    + intros Hge. rewrite <- Ly1 in *.
      pose proof (ndigits_four (year d1) ltac:(lia)) as Hn.
      rewrite <- Ly1 in Hn. lia.
  - change ("-"%char :: zero_pad 2 (month d1) ++ "-"%char :: zero_pad 2 (day d1))
      with (("-"%char :: zero_pad 2 (month d1)) ++ "-"%char :: zero_pad 2 (day d1)).
    rewrite app_assoc. apply take_app_length.
Qed.

Lemma month_key_same_month_witness :
  (_month_key (mkdate 2025 1 15) = _month_key (mkdate 2025 1 20)
   <-> 2025 = 2025 /\ 1 = 1)
  /\ (length (chars (_month_key (mkdate 2025 1 15))) = 7%nat <-> 1000 <= 2025)
  /\ take (length (chars (_month_key (mkdate 2025 1 15))))
          (chars (strftime_Ymd (mkdate 2025 1 15)))
     = chars (_month_key (mkdate 2025 1 15)).
Proof.
  apply (month_key_same_month (mkdate 2025 1 15) (mkdate 2025 1 20));
    vm_compute; reflexivity.
Defined.

(** ** Which expenses survive the file *)

(** X14: the row written for an expense is read back as that expense (its
    amount in fixed-point form) exactly when the expense satisfies the
    invariant of the data model and is dated from the year 1000 on. In
    particular an expense whose category is empty, which [add_expense]
    accepts, and an expense dated before the year 1000, which [from_row]
    itself accepts, are written by [save] and rejected by [from_row] when
    the file is loaded. *)
Theorem row_survives_iff_storable (e : Expense) :
  (from_row (to_row e) = Ok (canon e) <-> storable e)
  /\ (category e = ""%string -> Date.valid (date_ e) = true ->
      1000 <= year (date_ e) ->
      from_row (to_row e) = Raise (ValueError "Missing category"))
  /\ (year (date_ e) < 1000 ->
      from_row (to_row e) = Raise (ValueError "Invalid date format")).
Proof.
  split; [split|split].
  - intros H.
    destruct (from_row_inv _ _ H)
      as (dt & cat & amt & desc & M1 & M2 & M3 & M4 & _ & N2 & _ & N4
          & Hd & Hc & Hds & Ha & Hpos).
    destruct (to_row_lookups e) as (L1 & L2 & L3 & L4).
    rewrite L1 in M1. rewrite L2 in M2. rewrite L3 in M3. rewrite L4 in M4.
    simplify_eq. cbn in *.
    pose proof (strptime_valid _ _ Hd) as Hv.
    rewrite strip_strftime_Ymd in Hd.
    destruct (strptime_strftime_inv _ _ Hv Hd) as [Hy _].
    split; [|done]. repeat split; try done.
    by rewrite le_zero_fixed in Hpos.
  - apply from_row_to_row.
  - intros Hc Hv Hy. unfold from_row.
    destruct (decide (to_row e = ∅)) as [E|_]; [by apply to_row_nonempty in E|].
    destruct (to_row_lookups e) as (L1 & L2 & L3 & L4).
    rewrite L1, L2, Hc. cbn [falsy default from_option id].
    assert (is_empty (strftime_Ymd (date_ e)) = false) as ->.
    { apply is_empty_false, strftime_Ymd_nonempty. }
    rewrite strip_strftime_Ymd, strptime_strftime by done. done.
  - intros Hy. unfold from_row.
    destruct (decide (to_row e = ∅)) as [E|_]; [by apply to_row_nonempty in E|].
    destruct (to_row_lookups e) as (L1 & L2 & L3 & L4).
    rewrite L1. cbn [falsy default from_option id].
    assert (is_empty (strftime_Ymd (date_ e)) = false) as ->.
    { apply is_empty_false, strftime_Ymd_nonempty. }
    by rewrite strip_strftime_Ymd, strptime_strftime_early.
Qed.

Lemma row_survives_iff_storable_witness :
  from_row (to_row lunch) = Ok (canon lunch)
  /\ from_row (to_row early_lunch) = Raise (ValueError "Invalid date format").
Proof.
  split.
  - apply (proj1 (row_survives_iff_storable lunch)).
    repeat split; vm_compute; try done; by intros [=].
  - apply (proj2 (proj2 (row_survives_iff_storable early_lunch))).
    vm_compute. reflexivity.
Defined.

(** ** Saving again *)






(** ** Columns *)

(** X16: [from_row] reads the four fields only: adding or changing any
    other key of a non-empty row changes neither what it returns nor what
    it raises. *)
Theorem from_row_ignores_other_keys (m : Row) (k v : string) :
  ~ In k fieldnames -> m <> ∅ ->
  from_row (<[k := v]> m) = from_row m.
Proof.
  intros Hk Hm. unfold from_row.
  destruct (decide (<[k:=v]> m = ∅)) as [E|_]; [by apply insert_non_empty in E|].
  destruct (decide (m = ∅)) as [E|_]; [done|].
  assert (forall f, In f fieldnames -> <[k:=v]> m !! f = m !! f) as Hl.
  { intros f Hf. apply lookup_insert_ne. by intros ->. }
  rewrite (Hl "date"%string), (Hl "category"%string),
    (Hl "description"%string), (Hl "amount"%string); cbn; tauto.
Qed.

Lemma from_row_ignores_other_keys_witness :
  from_row (<["note"%string := "paid in cash"%string]>
              (sample_row " 2025-01-15 " " Food " " 250.00 " " Lunch "))
  = from_row (sample_row " 2025-01-15 " " Food " " 250.00 " " Lunch ").
Proof.
  apply from_row_ignores_other_keys.
  - cbn. intros [H|[H|[H|[H|[]]]]]; discriminate H.
  - intros H. apply (f_equal (fun m : Row => m !! "date"%string)) in H.
    vm_compute in H. discriminate H.
Defined.

Lemma from_row_needs_description (m : Row) :
  falsy (m !! "description"%string) = true ->
  exists msg, from_row m = Raise (ValueError msg).
Proof.
  intros H. unfold from_row. destruct (decide (m = ∅)); [eauto|].
  rewrite H.
  destruct (falsy (m !! "date"%string)); cbn; [eauto|].
  destruct (strptime _); cbn; [|eauto].
  destruct (falsy (m !! "category"%string)); eauto.
Qed.

(** X17: under the standard header, a record with fewer than four fields
    never becomes an expense (it is skipped, whatever its fields hold), and
    the fields of a record beyond the fourth are ignored. *)
Theorem short_records_are_skipped (r : list string) (a b c d : string)
    (surplus : list string) :
  ((length r < 4)%nat -> valid_rows (DictReader [fieldnames; r]) = [])
  /\ DictReader [fieldnames; a :: b :: c :: d :: surplus]
     = DictReader [fieldnames; [a; b; c; d]].
Proof.
  split; [|done]. intros Hr.
  destruct r as [|r1 r]; [done|].
  assert (falsy (zip_dict fieldnames (r1 :: r) ∅ !! "description"%string) = true)
    as Hd.
  { destruct r as [|r2 [|r3 [|r4 r]]]; cbn in Hr; try lia;
      cbn [zip_dict fieldnames]; by rewrite lookup_insert_eq. }
  destruct (from_row_needs_description _ Hd) as [msg E].
  change (DictReader [fieldnames; r1 :: r]) with [zip_dict fieldnames (r1 :: r) ∅].
  unfold valid_rows. by rewrite omap_cons_eq, E.
Qed.

Lemma short_records_are_skipped_witness :
  valid_rows (DictReader [fieldnames; ["2025-01-15"; "Food"; "250.00"]%string]) = [].
Proof.
  apply (proj1 (short_records_are_skipped ["2025-01-15"; "Food"; "250.00"]%string
                  ""%string ""%string ""%string ""%string [])).
  cbn. lia.
Defined.

(** A header that names a field twice: the later column counts, and where
    the record is too short to reach it, the field is empty however the
    earlier column was filled. A file that begins with an empty line names
    no field at all. *)
Example DictReader_repeated_name :
  let header := ["date"; "category"; "amount"; "description"; "date"]%string in
  let table := [header; ["2025-01-15"; "Food"; "10"; "Lunch"];
                ["01/15"; "Food"; "10"; "Lunch"; "2025-01-15"]]%string in
  map from_row (DictReader table)
  = [Raise (ValueError "Invalid date format");
     Ok (mkExpense (mkdate 2025 1 15) "Food" (Finite false 10 0) "Lunch")]
  /\ map from_row (DictReader [[]; ["2025-01-15"; "Food"; "10"; "Lunch"]]%string)
     = [Raise (ValueError "Invalid date format")].
Proof. split; vm_compute; reflexivity. Qed.

(** ** Money *)

Lemma split_point_parts c e :
  (e <= 0)%Z ->
  exists ip fp,
    Fmt.split_point (digits_of c) e = (ip, fp)
    /\ ip <> [] /\ forallb is_digit ip = true /\ forallb is_digit fp = true
    /\ length fp = Z.to_nat (- e)
    /\ digits_value (ip ++ fp) = c.
Proof.
  intros He. unfold Fmt.split_point.
  set (int := digits_of c). set (len := Z.of_nat (length int)).
  pose proof (digits_of_all_digits c) as Hint. fold int in Hint.
  pose proof (digits_value_digits_of c) as Hval. fold int in Hval.
  pose proof (digits_of_nonempty c) as Hne. fold int in Hne.
  assert (Hlen : (0 < len)%Z).
  { pose proof (ndigits_pos c) as Hp. unfold ndigits in Hp. fold int in Hp.
    subst len. lia. }
  clearbody int.
  destruct (Z.ltb_spec (e + len) 0) as [H1|H1].
  - exists ["0"%char], (zeros (Z.to_N (- (e + len))) ++ int).
    split; [reflexivity|]. split; [done|]. split; [reflexivity|].
    rewrite forallb_app, zeros_all_digits, Hint. split; [reflexivity|]. split.
    + rewrite length_app, length_zeros. subst len. lia.
    + rewrite digits_value_app, digits_value_app, digits_value_zeros, Hval.
      change (digits_value ["0"%char]) with 0. lia.
  - destruct (Z.ltb_spec len (e + len)) as [H2|H2]; [lia|].
    destruct (forallb_take_drop is_digit (Z.to_nat (e + len)) int Hint) as [Ht Hd].
    exists (Dec.or_zero (take (Z.to_nat (e + len)) int)),
           (drop (Z.to_nat (e + len)) int).
    split; [reflexivity|].
    split; [by destruct (take _ int)|].
    split; [by destruct (take _ int)|].
    split; [done|]. split.
    + rewrite length_drop. subst len. lia.
    + destruct (take (Z.to_nat (e + len)) int) eqn:Et.
      * cbn [Dec.or_zero].
        assert (E0 : Z.to_nat (e + len) = 0%nat).
        { destruct (Z.to_nat (e + len)); [done|]. destruct int; done. }
        rewrite E0, drop_0.
        rewrite digits_value_app, Hval. change (digits_value ["0"%char]) with 0. lia.
      * cbn [Dec.or_zero]. rewrite <- Et, take_drop. done.
Qed.

Lemma group_rev_ind (P : list ascii -> Prop) :
  P [] -> (forall a, P [a]) -> (forall a b, P [a; b]) -> (forall a b c, P [a; b; c]) ->
  (forall a b c d r, P (d :: r) -> P (a :: b :: c :: d :: r)) ->
  forall l, P l.
Proof.
  intros H0 H1 H2 H3 H4.
  assert (forall n l, (length l <= n)%nat -> P l) as H.
  { induction n as [|n IH]; intros l Hl.
    - destruct l; [done|cbn in Hl; lia].
    - destruct l as [|a [|b [|c [|d r]]]]; try done.
      apply H4. apply IH. cbn in *. lia. }
  intros l. by apply (H (length l)).
Qed.

Lemma group_rev_four a b c d r :
  Fmt.group_rev (a :: b :: c :: d :: r)
  = a :: b :: c :: ","%char :: Fmt.group_rev (d :: r).
Proof. reflexivity. Qed.

Lemma remove_commas_group_rev l :
  forallb not_comma l = true -> remove_commas (Fmt.group_rev l) = l.
Proof.
  induction l as [|a|a b|a b c|a b c d r IH] using group_rev_ind; intros H.
  - done.
  - cbn in *. by destruct (not_comma a).
  - cbn in *. by destruct (not_comma a), (not_comma b).
  - cbn in *. by destruct (not_comma a), (not_comma b), (not_comma c).
  - cbn [forallb] in H. apply andb_prop in H as [Ha H].
    apply andb_prop in H as [Hb H]. apply andb_prop in H as [Hc H].
    rewrite group_rev_four. unfold remove_commas in *.
    cbn [List.filter]. rewrite Ha, Hb, Hc.
    change (not_comma ","%char) with false. cbv iota.
    by rewrite IH.
Qed.

Lemma digit_not_comma c : is_digit c = true -> not_comma c = true.
Proof.
  unfold is_digit, not_comma. intros H.
  destruct (Ascii.eqb_spec c ","%char) as [->|]; [|done]. by vm_compute in H.
Qed.

Lemma digits_not_comma l : forallb is_digit l = true -> forallb not_comma l = true.
Proof.
  induction l as [|c l IH]; [done|]. cbn. intros [Hc Hl]%andb_prop.
  by rewrite digit_not_comma, IH.
Qed.

Lemma remove_commas_app l1 l2 :
  remove_commas (l1 ++ l2) = remove_commas l1 ++ remove_commas l2.
Proof. apply List.filter_app. Qed.

Lemma remove_commas_id l : forallb not_comma l = true -> remove_commas l = l.
Proof.
  unfold remove_commas.
  induction l as [|c l IH]; [done|]. cbn. intros [Hc Hl]%andb_prop.
  by rewrite Hc, IH.
Qed.

Lemma remove_commas_grouped ds :
  forallb is_digit ds = true ->
  remove_commas (Fmt.insert_thousands_sep ds) = ds.
Proof.
  intros H. unfold Fmt.insert_thousands_sep, remove_commas.
  rewrite List.filter_rev. fold (remove_commas (Fmt.group_rev (rev ds))).
  rewrite remove_commas_group_rev, rev_involutive; [done|].
  apply digits_not_comma. rewrite forallb_forall in *. intros x Hx.
  apply H. by apply in_rev.
Qed.

(** In the grouped digits, read from the right, exactly every fourth
    character is a comma. *)
Lemma group_rev_commas l :
  forallb is_digit l = true ->
  forall i c, nth_error (Fmt.group_rev l) i = Some c ->
    (c = ","%char <-> (i mod 4 = 3)%nat).
Proof.
  induction l as [|a|a b|a b c|a b c d r IH] using group_rev_ind; intros H i x Hx.
  - by destruct i.
  - cbn in H. destruct i as [|[|]]; cbn in Hx; simplify_eq.
    split; [intros ->; by vm_compute in H|by cbn].
  - cbn in H. apply andb_prop in H as [Ha H]. apply andb_prop in H as [Hb _].
    destruct i as [|[|[|]]]; cbn in Hx; simplify_eq;
      (split; [intros ->; by vm_compute in Ha || by vm_compute in Hb|by cbn]).
  - cbn in H. apply andb_prop in H as [Ha H]. apply andb_prop in H as [Hb H].
    apply andb_prop in H as [Hc _].
    destruct i as [|[|[|[|]]]]; cbn in Hx; simplify_eq;
      (split; [intros ->; by vm_compute in Ha || by vm_compute in Hb
                          || by vm_compute in Hc|by cbn]).
  - cbn [forallb] in H. apply andb_prop in H as [Ha H].
    apply andb_prop in H as [Hb H]. apply andb_prop in H as [Hc H].
    rewrite group_rev_four in Hx.
    destruct i as [|[|[|[|i]]]]; cbn [nth_error] in Hx; simplify_eq.
    + split; [intros ->; by vm_compute in Ha|by cbn].
    + split; [intros ->; by vm_compute in Hb|by cbn].
    + split; [intros ->; by vm_compute in Hc|by cbn].
    + done.
    + rewrite (IH H i x Hx).
      replace (S (S (S (S i)))) with (i + 1 * 4)%nat by lia.
      by rewrite Nat.Div0.mod_add.
Qed.

Lemma rescale_finite s c e :
  exists c', Fmt.rescale (-2) (Finite s c e) = Finite s c' (-2).
Proof.
  unfold Fmt.rescale. destruct (c =? 0); [eauto|].
  destruct (_ <=? e)%Z; eauto.
Qed.

Lemma format_comma_2f_parts s c e :
  exists c' ip fp,
    Fmt.rescale (-2) (Finite s c e) = Finite s c' (-2)
    /\ Fmt.format_comma_2f (Finite s c e)
       = Dec.sign_text s ++ Fmt.insert_thousands_sep ip ++ "."%char :: fp
    /\ ip <> [] /\ forallb is_digit ip = true /\ forallb is_digit fp = true
    /\ length fp = 2%nat
    /\ digits_value (ip ++ fp) = c'.
Proof.
  destruct (rescale_finite s c e) as [c' Hc']. exists c'.
  unfold Fmt.format_comma_2f. rewrite Hc'.
  destruct (split_point_parts c' (-2) ltac:(lia))
    as (ip & fp & -> & Hne & Hip & Hfp & Hlen & Hval).
  exists ip, fp. split; [done|]. change (Z.to_nat (- -2)) with 2%nat in Hlen.
  repeat split; try done.
  destruct fp; [done|]. reflexivity.
Qed.

(** X18: for a number, [fmt_money] writes the currency sign, a minus sign if
    the number is negative, the integer digits, a point and exactly two
    decimals; read from the point leftwards, the integer digits carry a
    comma at exactly every fourth place. Without the commas, the text after
    the currency sign is read back by [Decimal] as the number rounded to
    two decimals. *)
Theorem fmt_money_shape (RUPEE : string) (s : bool) (c : N) (e : Z) :
  exists ip fp : list ascii,
    fmt_money RUPEE (Finite s c e)
    = (RUPEE +:+ text (Dec.sign_text s ++ Fmt.insert_thousands_sep ip
                        ++ "."%char :: fp))%string
    /\ ip <> [] /\ forallb is_digit ip = true
    /\ forallb is_digit fp = true /\ length fp = 2%nat
    /\ remove_commas (Fmt.insert_thousands_sep ip) = ip
    /\ (forall i x, nth_error (rev (Fmt.insert_thousands_sep ip)) i = Some x ->
          (x = ","%char <-> (i mod 4 = 3)%nat))
    /\ Dec.of_str (text (remove_commas (Fmt.format_comma_2f (Finite s c e))))
       = Ok (Fmt.rescale (-2) (Finite s c e)).
Proof.
  destruct (format_comma_2f_parts s c e)
    as (c' & ip & fp & Hr & Hf & Hne & Hip & Hfp & Hlen & Hval).
  exists ip, fp. unfold fmt_money. rewrite Hf.
  split; [done|]. do 4 (split; [done|]). split; [|split].
  - by apply remove_commas_grouped.
  - intros i x. unfold Fmt.insert_thousands_sep. rewrite rev_involutive.
    apply group_rev_commas. rewrite forallb_forall in *. intros y Hy.
    apply Hip. by apply in_rev.
  - rewrite !remove_commas_app, remove_commas_grouped by done.
    rewrite (remove_commas_id (Dec.sign_text s)) by (by destruct s).
    rewrite (remove_commas_id ("."%char :: fp))
      by (cbn; by rewrite digits_not_comma).
    rewrite of_str_text.
    replace ("."%char :: fp) with (Dec.with_point fp) by (by destruct fp).
    rewrite plain_text_kept.
    + rewrite parse_fixed_text by done. rewrite Hr, Hval, Hlen. done.
    + rewrite !forallb_app. rewrite (digits_plain ip) by done.
      destruct fp; [done|]. cbn [Dec.with_point forallb].
      cbn [forallb] in Hfp. apply andb_prop in Hfp as [Ha Hfp].
      rewrite (is_digit_plain a Ha), (digits_plain fp Hfp).
      by destruct s.
Qed.



